(** * openclaw-polymarket: the tool layer (tools.ts) and the plugin entry
    point (index.ts), embedded in Rocq.

    The development follows the two source files:

    - [JsNumber]: the IEEE-754 doubles the code computes with
      ([parseFloat], comparisons, [limit * 3], [slice]'s index arithmetic);
    - [JsValue]: the dynamically typed values that the three loosely
      typed market fields ([outcomes], [outcomePrices], [clobTokenIds])
      can hold, with the runtime operations [formatMarket] applies to them;
    - the collaborator interface ([Env]) and a small writer-and-exception
      monad [M] that records every collaborator call an operation makes;
    - the eight tools of [createPolymarketTools] and [activate];
    - the properties of the specification, proved about these definitions.

    Conventions.  A string is a sequence of code units below 256.  The
    built-ins [JSON.parse], [Number.prototype.toString] and [parseInt]
    are parameters of the definitions that use them; [Json.parse] is a
    reference parser to run them with.  Fields the interfaces declare
    with a fixed type are kept at that type; a field the code reads as
    [unknown] is a [value]. *)

From Stdlib Require Import ZArith QArith Qpower List String Ascii Bool Lia DecimalString.
Import ListNotations.
Open Scope string_scope.
Open Scope Z_scope.
Set Warnings "-register-all".

(** ** Numbers *)

Module JsNumber.

(** A JavaScript number.  A finite double is kept as the dyadic rational
    [m * 2^e] it denotes; the two zeros are not told apart (nothing in
    this code base divides by a zero or prints its sign). *)
Inductive number : Type :=
| NaN
| Infinity (negative : bool)
| Finite (m e : Z).

(** Canonical form of a finite value: an odd mantissa, or [Finite 0 0]. *)
Fixpoint strip (p : positive) (e : Z) : positive * Z :=
  match p with
  | xO q => strip q (e + 1)
  | _ => (p, e)
  end.

Definition mk_finite (m e : Z) : number :=
  match m with
  | Z0 => Finite 0 0
  | Zpos p => let '(q, e') := strip p e in Finite (Zpos q) e'
  | Zneg p => let '(q, e') := strip p e in Finite (Zneg q) e'
  end.

Definition zero : number := Finite 0 0.

(** Round the positive rational [n / d] to the nearest binary64 value,
    ties to even: 53 bits of precision, least exponent -1074, overflow
    to [Infinity] from [2^1024] on.  [round_pos] gives the mantissa and
    the exponent: [k] is the binary order of magnitude of [n / d], [e]
    the exponent of its last kept bit. *)
Definition round_pos (n d : Z) : Z * Z :=
  let lg := Z.log2 n - Z.log2 d in
  let k := if n * 2 ^ Z.max 0 (- lg) <? d * 2 ^ Z.max 0 lg then lg - 1 else lg in
  let e := Z.max (k - 52) (-1074) in
  let num := n * 2 ^ Z.max 0 (- e) in
  let den := d * 2 ^ Z.max 0 e in
  let q := num / den in
  let r := num mod den in
  let q' := match 2 * r ?= den with
            | Lt => q
            | Gt => q + 1
            | Eq => if Z.even q then q else q + 1
            end in
  (q', e).

Definition binary64 (negative : bool) (n d : Z) : number :=
  if (n <=? 0) || (d <=? 0) then zero
  else
    let '(q, e) := round_pos n d in
    if (971 <? e) || ((e =? 971) && (2 ^ 53 <=? q)) then Infinity negative
    else mk_finite (if negative then - q else q) e.

(** The double nearest to the dyadic [m * 2^e]. *)
Definition round_dyadic (m e : Z) : number :=
  binary64 (m <? 0) (Z.abs m * 2 ^ Z.max 0 e) (2 ^ Z.max 0 (- e)).

(** The double nearest to the decimal [m * 10^e]. *)
Definition of_decimal (negative : bool) (m e : Z) : number :=
  binary64 negative (m * 10 ^ Z.max 0 e) (10 ^ Z.max 0 (- e)).

Definition of_Z (z : Z) : number := round_dyadic z 0.

(** Exact comparison of two finite values. *)
Definition compare_finite (m1 e1 m2 e2 : Z) : comparison :=
  let k := Z.min e1 e2 in
  (m1 * 2 ^ (e1 - k)) ?= (m2 * 2 ^ (e2 - k)).

(** [x < y]: false as soon as one side is [NaN]. *)
Definition ltb (x y : number) : bool :=
  match x, y with
  | NaN, _ | _, NaN => false
  | Infinity true, Infinity true => false
  | Infinity true, _ => true
  | _, Infinity true => false
  | Infinity false, _ => false
  | _, Infinity false => true
  | Finite m1 e1, Finite m2 e2 =>
      match compare_finite m1 e1 m2 e2 with Lt => true | _ => false end
  end.

(** [x <= y] and [x >= y]: again false on [NaN]. *)
Definition leb (x y : number) : bool :=
  match x, y with
  | NaN, _ | _, NaN => false
  | _, _ => negb (ltb y x)
  end.

Definition geb (x y : number) : bool := leb y x.

Definition isNaN (x : number) : bool :=
  match x with NaN => true | _ => false end.

Definition isFinite (x : number) : bool :=
  match x with Finite _ _ => true | _ => false end.

(** Truthiness of a number: everything but [0] and [NaN]. *)
Definition truthy (x : number) : bool :=
  match x with
  | NaN => false
  | Infinity _ => true
  | Finite m _ => negb (m =? 0)
  end.

(** [x * y]. *)
Definition mul (x y : number) : number :=
  match x, y with
  | NaN, _ | _, NaN => NaN
  | Infinity s, Infinity t => Infinity (xorb s t)
  | Infinity s, Finite m _ | Finite m _, Infinity s =>
      if m =? 0 then NaN else Infinity (xorb s (m <? 0))
  | Finite m1 e1, Finite m2 e2 => round_dyadic (m1 * m2) (e1 + e2)
  end.

(** [ToIntegerOrInfinity]: [NaN] becomes 0, a finite value is truncated
    toward zero. *)
Inductive integer_or_infinity : Type :=
| NegInfinity
| Integer (z : Z)
| PosInfinity.

Definition ToIntegerOrInfinity (x : number) : integer_or_infinity :=
  match x with
  | NaN => Integer 0
  | Infinity true => NegInfinity
  | Infinity false => PosInfinity
  | Finite m e => Integer (Z.quot (m * 2 ^ Z.max 0 e) (2 ^ Z.max 0 (- e)))
  end.

(** The rational a finite double denotes, to state what the comparisons
    decide. *)
Definition value_of (m e : Z) : Q := (inject_Z m * 2 ^ e)%Q.

(** [x] is [+Infinity] or a finite value not below [bound]. *)
Definition at_least (bound : Q) (x : number) : Prop :=
  match x with
  | Infinity false => True
  | Finite m e => (bound <= value_of m e)%Q
  | _ => False
  end.

(** [x] is a finite value strictly between [low] and [high]. *)
Definition strictly_between (low high : Q) (x : number) : Prop :=
  match x with
  | Finite m e => (low < value_of m e)%Q /\ (value_of m e < high)%Q
  | _ => False
  end.

(** *** [parseFloat] on strings

    A string is a sequence of code units below 256.  [parseFloat] drops
    leading white space, reads the longest prefix that is a
    [StrDecimalLiteral] and returns [NaN] when there is none. *)

Definition is_white_space (c : ascii) : bool :=
  let n := nat_of_ascii c in
  ((9 <=? n) && (n <=? 13))%nat || (n =? 32)%nat || (n =? 160)%nat.

Fixpoint trim_start (s : string) : string :=
  match s with
  | String c r => if is_white_space c then trim_start r else s
  | EmptyString => s
  end.

Definition digit_of (c : ascii) : option Z :=
  let n := nat_of_ascii c in
  if ((48 <=? n) && (n <=? 57))%nat then Some (Z.of_nat n - 48) else None.

(** Reads a run of decimal digits onto the accumulator [acc]; returns the
    number read, how many digits there were, and what follows. *)
Fixpoint read_digits (s : string) (acc count : Z) : Z * Z * string :=
  match s with
  | String c r =>
      match digit_of c with
      | Some d => read_digits r (acc * 10 + d) (count + 1)
      | None => (acc, count, s)
      end
  | EmptyString => (acc, count, s)
  end.

(** An [ExponentPart] at the head of [s], or 0 when there is none. *)
Definition exponent_part (s : string) : Z :=
  match s with
  | String c r =>
      if (c =? "e")%char || (c =? "E")%char then
        let '(negative, r') :=
          match r with
          | String "+" t => (false, t)
          | String "-" t => (true, t)
          | _ => (false, r)
          end in
        let '(x, count, _) := read_digits r' 0 0 in
        if count =? 0 then 0 else if negative then - x else x
      else 0
  | EmptyString => 0
  end.

Inductive literal : Type :=
| NoLiteral
| InfinityLiteral
| DecimalLiteral (mantissa exponent : Z).

Definition str_unsigned_decimal_literal (s : string) : literal :=
  if String.prefix "Infinity" s then InfinityLiteral
  else
    let '(ip, ni, s1) := read_digits s 0 0 in
    let '(m, nf, s2) :=
      match s1 with
      | String "." r => read_digits r ip 0
      | _ => (ip, 0, s1)
      end in
    if (ni =? 0) && (nf =? 0) then NoLiteral
    else DecimalLiteral m (exponent_part s2 - nf).

Definition parseFloat (input : string) : number :=
  let s := trim_start input in
  let '(negative, s') :=
    match s with
    | String "+" t => (false, t)
    | String "-" t => (true, t)
    | _ => (false, s)
    end in
  match str_unsigned_decimal_literal s' with
  | NoLiteral => NaN
  | InfinityLiteral => Infinity negative
  | DecimalLiteral m e => of_decimal negative m e
  end.

End JsNumber.
Import JsNumber.

(** ** Dynamically typed values *)

Module JsValue.

(** What a field typed [unknown] can hold once the payload has come out of
    [response.json()] or [JSON.parse]: a JSON value, or [undefined] for a
    property that is not there.  An object keeps its own properties in
    the order of the text. *)
Inductive value : Type :=
| VUndefined
| VNull
| VBoolean (b : bool)
| VNumber (n : number)
| VString (s : string)
| VArray (items : list value)
| VObject (properties : list (string * value)).

Definition truthy (v : value) : bool :=
  match v with
  | VUndefined | VNull => false
  | VBoolean b => b
  | VNumber n => JsNumber.truthy n
  | VString s => negb (s =? "")%string
  | VArray _ | VObject _ => true
  end.

(** [a || b] *)
Definition or_else (a b : value) : value := if truthy a then a else b.

(** A thrown value, as the [catch] clauses of the tools see it: an
    [Error] with its [message], or any other value with the text
    [String(error)] gives for it. *)
Inductive thrown : Type :=
| ErrorObject (message : string)
| NonError (rendering : string).

Definition error_message (e : thrown) : string :=
  match e with
  | ErrorObject m => m
  | NonError r => r
  end.

(** What reading a property of [null] or [undefined] throws. *)
Definition TypeError (receiver property : string) : thrown :=
  ErrorObject
    ("Cannot read properties of " ++ receiver ++ " (reading '" ++ property ++ "')").

(** The decimal numeral of an array index, as a property key. *)
Definition index_key (i : nat) : string :=
  NilEmpty.string_of_uint (Nat.to_uint i).

Fixpoint own_property (key : string) (ps : list (string * value)) : value :=
  match ps with
  | [] => VUndefined
  | (k, v) :: rest => if (k =? key)%string then v else own_property key rest
  end.

(** [v[i]] for a non-negative integer [i]. *)
Definition get_index (v : value) (i : nat) : thrown + value :=
  match v with
  | VUndefined => inl (TypeError "undefined" (index_key i))
  | VNull => inl (TypeError "null" (index_key i))
  | VBoolean _ | VNumber _ => inr VUndefined
  | VString s =>
      inr (match String.get i s with
           | Some c => VString (String c "")
           | None => VUndefined
           end)
  | VArray items => inr (nth i items VUndefined)
  | VObject ps => inr (own_property (index_key i) ps)
  end.

(** [v.length], when it is a count the [for] loop of [formatMarket] can
    run up to: the length of an array or of a string, and no iteration
    at all ([Some 0]) where the property is [undefined].  An object that
    carries a [length] property of its own is left out ([None]). *)
Definition get_length (v : value) : thrown + option nat :=
  match v with
  | VUndefined => inl (TypeError "undefined" "length")
  | VNull => inl (TypeError "null" "length")
  | VBoolean _ | VNumber _ => inr (Some 0%nat)
  | VString s => inr (Some (String.length s))
  | VArray items => inr (Some (List.length items))
  | VObject ps =>
      inr (match own_property "length" ps with
           | VUndefined => Some 0%nat
           | _ => None
           end)
  end.

(** [parseFloat(v)]: the argument goes through [String] first.  A number
    prints to a numeral that reads back as itself; an array prints its
    items separated by commas, so only its first item can be read; [true],
    [null], [undefined] and [[object Object]] start no numeral. *)
Fixpoint parseFloat_value (v : value) : number :=
  match v with
  | VString s => parseFloat s
  | VNumber n => n
  | VArray (x :: _) => parseFloat_value x
  | _ => NaN
  end.

End JsValue.
Import JsValue.

(** ** Outcomes of a computation, and the call-recording monad *)

(** How a piece of code ends.  [Unmodelled] marks the two places the
    embedding leaves out ([get_length] on an object with a [length] of
    its own, and the run of a tool that is handed a text in place of its
    parameters); no [catch] sees it. *)
Inductive outcome (A : Type) : Type :=
| Returned (a : A)
| Threw (e : thrown)
| Unmodelled.
Arguments Returned {A} a.
Arguments Threw {A} e.
Arguments Unmodelled {A}.

Definition of_sum {A : Type} (r : thrown + A) : outcome A :=
  match r with
  | inl e => Threw e
  | inr a => Returned a
  end.

Definition obind {A B : Type} (x : outcome A) (f : A -> outcome B) : outcome B :=
  match x with
  | Returned a => f a
  | Threw e => Threw e
  | Unmodelled => Unmodelled
  end.

(** [xs.map(f)] for an [f] that may throw: left to right, stopping at the
    first item that does not return. *)
Fixpoint omap {A B : Type} (f : A -> outcome B) (xs : list A) : outcome (list B) :=
  match xs with
  | [] => Returned []
  | x :: rest =>
      obind (f x) (fun y => obind (omap f rest) (fun ys => Returned (y :: ys)))
  end.

(** ** Raw payloads (the interfaces at the head of tools.ts) *)

Module GammaMarket.
(** [clobTokenIds], [outcomes] and [outcomePrices] are declared
    [string[]] but arrive as stringified arrays, so they are kept as the
    [unknown] that [parseJsonField] takes. *)
Record t : Type := {
  conditionId : string;
  question : string;
  slug : string;
  volume : string;
  endDate : string;
  active : bool;
  closed : bool;
  clobTokenIds : value;
  outcomes : value;
  outcomePrices : value
}.
End GammaMarket.

Module RawOrderbookEntry.
Record t : Type := { price : string; size : string }.
End RawOrderbookEntry.

Module RawOrderbook.
Record t : Type := {
  bids : option (list RawOrderbookEntry.t);
  asks : option (list RawOrderbookEntry.t)
}.
End RawOrderbook.

Module RawBalanceAllowance.
Record t : Type := { balance : option string; allowance : option string }.
End RawBalanceAllowance.

Module RawOpenOrder.
Record t : Type := {
  id : string;
  asset_id : string;
  side : string;
  price : string;
  original_size : string;
  size_matched : string;
  outcome : option string;
  market : option string
}.
End RawOpenOrder.

Module RawTrade.
Record t : Type := {
  id : string;
  asset_id : string;
  side : string;
  price : string;
  size : string;
  timestamp : option string;
  match_time : option string;
  status : string
}.
End RawTrade.

Module RawOrderResponse.
Record t : Type := {
  orderID : option string;
  status : option string;
  errorMsg : option string
}.
End RawOrderResponse.

Module RawMarketInfo.
Record t : Type := {
  minimum_tick_size : option number;
  neg_risk : option bool
}.
End RawMarketInfo.

(** [s || fallback] on a string that may be missing. *)
Definition string_or (s : option string) (fallback : string) : string :=
  match s with
  | Some x => if (x =? "")%string then fallback else x
  | None => fallback
  end.

(** ** Normalised payloads (what the tools hand to [toolResult]) *)

Module Token.
Record t : Type := { token_id : value; outcome : value; price : number }.
End Token.

Module Market.
Record t : Type := {
  condition_id : string;
  question : string;
  tokens : list Token.t;
  volume : string;
  end_date : string;
  active : bool;
  closed : bool
}.
End Market.

Module Position.
Record t : Type := {
  token_id : string;
  market : string;
  outcome : string;
  size : string;
  avg_price : string
}.
End Position.

Module OpenOrder.
Record t : Type := {
  id : string;
  token_id : string;
  side : string;
  price : string;
  size : string;
  filled : string
}.
End OpenOrder.

Module Trade.
Record t : Type := {
  id : string;
  token_id : string;
  side : string;
  price : string;
  size : string;
  timestamp : string;
  status : string
}.
End Trade.

Module OrderDetails.
Record t : Type := {
  token_id : string;
  side : string;
  size : string;
  price : string;
  tick_size : number;
  neg_risk : bool
}.
End OrderDetails.

Module OrderResult.
Record t : Type := {
  order_id : string;
  status : string;
  message : option string;
  order_details : OrderDetails.t
}.
End OrderResult.

(** The [data] argument of [toolResult], one constructor per shape the
    tools build. *)
Inductive Payload : Type :=
| ErrorData (error : string)
| MarketListData (markets : list Market.t)
| MarketData (market : Market.t)
| OrderbookData (token_id : string) (bids asks : list RawOrderbookEntry.t)
| BalanceData (address balance allowance : string)
| PositionsData (positions : list Position.t) (open_orders : list OpenOrder.t)
| TradeListData (trades : list Trade.t)
| OrderData (result : OrderResult.t)
| CancelData (order_id status : string) (response : value).

(** The result envelope.  [content] stands for the one text item whose
    text is [JSON.stringify(data, null, 2)]; [isError] is [true] when the
    envelope carries the flag and [false] when it has no such property. *)
Record ToolResult : Type := { content : Payload; isError : bool }.

Definition toolResult (data : Payload) (flag : bool) : ToolResult :=
  {| content := data; isError := flag |}.

Definition errorResult (message : string) : ToolResult :=
  toolResult (ErrorData message) true.

(** ** Collaborators *)

(** The address [fetch] is given, kept in its parts: the Gamma base
    address, the path under it, and the query in the order
    [URLSearchParams] holds it. *)
Record Url : Type := {
  base : string;
  path : string;
  query : list (string * string)
}.

(** What [fetch] resolves to.  [json] is what [response.json()] gives,
    typed by the cast the caller applies to it. *)
Record Response (B : Type) : Type := {
  ok : bool;
  status : Z;
  statusText : string;
  json : thrown + B
}.
Arguments ok {B} r.
Arguments status {B} r.
Arguments statusText {B} r.
Arguments json {B} r.

Inductive ClobSide : Type := BUY | SELL.

Record OrderArgs : Type := {
  tokenID : string;
  side : ClobSide;
  size : number;
  price : number;
  feeRateBps : number
}.

(** A signed order is opaque to this layer. *)
Record SignedOrder : Type := { signed : string }.

(** Everything outside tools.ts that an operation calls: the methods of
    [ClobClientWrapper], those of the CLOB client it hands out, and
    [fetch].  Each either returns or throws; no operation calls the same
    method twice, so a reply is a function of the arguments alone.
    [fetch] comes twice, once per endpoint, with the body typed as the
    caller casts it: the body of the listing endpoint is [None] when it
    is not an array, the body of the single-market endpoint is [None]
    when it is [null]. *)
Record Env : Type := {
  initialize : thrown + unit;
  ensureWriteAccess : thrown + unit;
  getGammaApiUrl : thrown + string;
  getFunder : thrown + string;
  getClient : thrown + unit;
  fetch_markets : Url -> thrown + Response (option (list GammaMarket.t));
  fetch_market : Url -> thrown + Response (option GammaMarket.t);
  getOrderBook : string -> thrown + RawOrderbook.t;
  getBalanceAllowance : thrown + RawBalanceAllowance.t;
  getOpenOrders : thrown + option (list RawOpenOrder.t);
  getTrades : thrown + option (list RawTrade.t);
  getMarket : string -> thrown + RawMarketInfo.t;
  createOrder : OrderArgs -> thrown + SignedOrder;
  postOrder : SignedOrder -> thrown + RawOrderResponse.t;
  cancelOrder : string -> thrown + value
}.

(** The calls an operation can make, as a trace records them. *)
Inductive Call : Type :=
| CallInitialize
| CallEnsureWriteAccess
| CallGetGammaApiUrl
| CallGetFunder
| CallGetClient
| CallFetch (url : Url)
| CallResponseJson
| CallGetOrderBook (token_id : string)
| CallGetBalanceAllowance
| CallGetOpenOrders
| CallGetTrades
| CallGetMarket (token_id : string)
| CallCreateOrder (args : OrderArgs)
| CallPostOrder (order : SignedOrder)
| CallCancelOrder (order_id : string).

(** A call together with what it threw, if it threw. *)
Definition Event : Type := (Call * option thrown)%type.

(** A computation: the calls it made, in order, and how it ended. *)
Definition M (A : Type) : Type := (list Event * outcome A)%type.

Definition ret {A : Type} (a : A) : M A := ([], Returned a).

Definition throw {A : Type} (e : thrown) : M A := ([], Threw e).

Definition lift {A : Type} (x : outcome A) : M A := ([], x).

Definition bind {A B : Type} (m : M A) (f : A -> M B) : M B :=
  match m with
  | (t, Returned a) => let '(t', r) := f a in ((t ++ t')%list, r)
  | (t, Threw e) => (t, Threw e)
  | (t, Unmodelled) => (t, Unmodelled)
  end.

(** [try { body } catch (error) { handler }] *)
Definition try_catch {A : Type} (body : M A) (handler : thrown -> M A) : M A :=
  match body with
  | (t, Threw e) => let '(t', r) := handler e in ((t ++ t')%list, r)
  | _ => body
  end.

(** One collaborator call. *)
Definition call {A : Type} (c : Call) (r : thrown + A) : M A :=
  match r with
  | inl e => ([(c, Some e)], Threw e)
  | inr a => ([(c, None)], Returned a)
  end.

Declare Scope tool_scope.
Delimit Scope tool_scope with tool.
Notation "x <- m ;; k" := (bind m (fun x => k))
  (at level 61, m at next level, right associativity) : tool_scope.
Notation "m ;; k" := (bind m (fun _ => k))
  (at level 61, right associativity) : tool_scope.

Definition trace {A : Type} (m : M A) : list Event := fst m.
Definition result {A : Type} (m : M A) : outcome A := snd m.

Definition calls {A : Type} (m : M A) : list Call := map fst (trace m).

(** ** Array and string helpers *)

(** [xs.slice(0, end)] *)
Definition slice0 {A : Type} (xs : list A) (end_ : number) : list A :=
  let len := Z.of_nat (List.length xs) in
  let final :=
    match ToIntegerOrInfinity end_ with
    | NegInfinity => 0
    | Integer k => if k <? 0 then Z.max (len + k) 0 else Z.min k len
    | PosInfinity => len
    end in
  firstn (Z.to_nat (Z.max final 0)) xs.

(** [s.toLowerCase()] on code units below 256. *)
Definition lower_char (c : ascii) : ascii :=
  let n := nat_of_ascii c in
  if (((65 <=? n) && (n <=? 90))
      || ((192 <=? n) && (n <=? 222) && negb (n =? 215)))%nat
  then ascii_of_nat (n + 32) else c.

Fixpoint toLowerCase (s : string) : string :=
  match s with
  | EmptyString => EmptyString
  | String c r => String (lower_char c) (toLowerCase r)
  end.

(** [n || fallback] on a number that may be missing. *)
Definition number_or (n : option number) (fallback : number) : number :=
  match n with
  | Some x => if JsNumber.truthy x then x else fallback
  | None => fallback
  end.

(** The [params] record an [execute] receives, with the properties the
    eight parameter schemas declare, each at its declared type and
    [None] when the caller left it out. *)
Module Params.
Record t : Type := {
  limit : option number;
  offset : option number;
  search : option string;
  condition_id : option string;
  token_id : option string;
  side : option string;
  size : option string;
  price : option string;
  order_id : option string
}.
Definition empty : t :=
  {| limit := None; offset := None; search := None; condition_id := None;
     token_id := None; side := None; size := None; price := None;
     order_id := None |}.
End Params.

(** A string parameter that passes the test [if (!x)]: present and not
    empty. *)
Definition given (s : option string) : option string :=
  match s with
  | Some x => if (x =? "")%string then None else Some x
  | None => None
  end.

(** [parseFloat(params.x as string)]; [undefined] reads as [NaN]. *)
Definition parseFloat_param (s : option string) : number :=
  match s with
  | Some x => parseFloat x
  | None => NaN
  end.

(** The literal [0.01]. *)
Definition default_tick_size : number := of_decimal false 1 (-2).

(** A [Map] from strings, in insertion order. *)
Definition map_has {V : Type} (m : list (string * V)) (k : string) : bool :=
  existsb (fun kv => (fst kv =? k)%string) m.

Fixpoint map_set {V : Type} (m : list (string * V)) (k : string) (v : V)
  : list (string * V) :=
  match m with
  | [] => [(k, v)]
  | (k', v') :: rest =>
      if (k' =? k)%string then (k, v) :: rest else (k', v') :: map_set rest k v
  end.

Definition map_values {V : Type} (m : list (string * V)) : list V := map snd m.

(** ** tools.ts *)

Section Tools.

(** [JSON.parse], with [None] for a [SyntaxError], and
    [Number.prototype.toString]: built-ins the embedding takes as given. *)
Variable JSON_parse : string -> option value.
Variable Number_toString : number -> string.

(** The client the tools are built around (and [fetch]). *)
Variable client : Env.

Local Open Scope tool_scope.

Definition parseJsonField (v fallback : value) : value :=
  match v with
  | VString s =>
      match JSON_parse s with
      | Some parsed => parsed
      | None => fallback
      end
  | VArray _ => v
  | _ => fallback
  end.

(** The body of the [for] loop of [formatMarket] at index [i]. *)
Definition token_at (outcomes prices tokenIds : value) (i : nat) : outcome Token.t :=
  obind (of_sum (get_index tokenIds i)) (fun tid =>
  obind (of_sum (get_index outcomes i)) (fun out =>
  obind (of_sum (get_index prices i)) (fun p =>
  Returned {| Token.token_id := or_else tid (VString "");
              Token.outcome := out;
              Token.price := if truthy p then parseFloat_value p else zero |}))).

Definition formatMarket (market : GammaMarket.t) : outcome Market.t :=
  let outcomes :=
    parseJsonField (GammaMarket.outcomes market) (VArray [VString "Yes"; VString "No"]) in
  let prices := parseJsonField (GammaMarket.outcomePrices market) (VArray []) in
  let tokenIds := parseJsonField (GammaMarket.clobTokenIds market) (VArray []) in
  match get_length outcomes with
  | inl e => Threw e
  | inr None => Unmodelled
  | inr (Some n) =>
      obind (omap (token_at outcomes prices tokenIds) (seq 0 n)) (fun tokens =>
      Returned {| Market.condition_id := GammaMarket.conditionId market;
                  Market.question := GammaMarket.question market;
                  Market.tokens := tokens;
                  Market.volume := string_or (Some (GammaMarket.volume market)) "0";
                  Market.end_date := string_or (Some (GammaMarket.endDate market)) "";
                  Market.active := GammaMarket.active market;
                  Market.closed := GammaMarket.closed market |})
  end.

(** The test of the [filter] in [fetchGammaMarkets]. *)
Definition keep_market (m : GammaMarket.t) : bool :=
  negb (GammaMarket.closed m) && truthy (GammaMarket.clobTokenIds m).

Definition fetchGammaMarkets (limit offset : number) (search : option string)
  : M (list GammaMarket.t) :=
  baseUrl <- call CallGetGammaApiUrl (getGammaApiUrl client) ;;
  let params :=
    [("limit", Number_toString (mul limit (of_Z 3)));
     ("offset", Number_toString offset);
     ("closed", "false")] in
  let params :=
    match given search with
    | Some s => (params ++ [("slug_contains", toLowerCase s)])%list
    | None => params
    end in
  let url := {| base := baseUrl; path := "/markets"; query := params |} in
  response <- call (CallFetch url) (fetch_markets client url) ;;
  if negb (ok response) then
    throw (ErrorObject ("Failed to fetch markets: " ++ statusText response))
  else
    data <- call CallResponseJson (json response) ;;
    match data with
    | None => ret []
    | Some data => ret (slice0 (filter keep_market data) limit)
    end.

Definition fetchGammaMarket (conditionId : string) : M (option GammaMarket.t) :=
  baseUrl <- call CallGetGammaApiUrl (getGammaApiUrl client) ;;
  let url := {| base := baseUrl; path := "/markets/" ++ conditionId; query := [] |} in
  response <- call (CallFetch url) (fetch_market client url) ;;
  if negb (ok response) then
    if status response =? 404 then ret None
    else throw (ErrorObject ("Failed to fetch market: " ++ statusText response))
  else
    call CallResponseJson (json response).

(** The [catch] clause every [execute] ends with. *)
Definition catch_all (body : M ToolResult) : M ToolResult :=
  try_catch body (fun error => ret (errorResult (error_message error))).

Definition polymarket_get_markets (_id : string) (params : Params.t) : M ToolResult :=
  catch_all (
    call CallInitialize (initialize client) ;;
    let limit := number_or (Params.limit params) (of_Z 10) in
    let offset := number_or (Params.offset params) (of_Z 0) in
    let search := Params.search params in
    markets <- fetchGammaMarkets limit offset search ;;
    formatted <- lift (omap formatMarket markets) ;;
    ret (toolResult (MarketListData formatted) false)).

Definition polymarket_get_market (_id : string) (params : Params.t) : M ToolResult :=
  catch_all (
    call CallInitialize (initialize client) ;;
    match given (Params.condition_id params) with
    | None => ret (errorResult "condition_id is required")
    | Some conditionId =>
        market <- fetchGammaMarket conditionId ;;
        match market with
        | None => ret (errorResult ("Market not found: " ++ conditionId))
        | Some market =>
            formatted <- lift (formatMarket market) ;;
            ret (toolResult (MarketData formatted) false)
        end
    end).

Definition polymarket_get_orderbook (_id : string) (params : Params.t) : M ToolResult :=
  catch_all (
    call CallInitialize (initialize client) ;;
    match given (Params.token_id params) with
    | None => ret (errorResult "token_id is required")
    | Some tokenId =>
        call CallGetClient (getClient client) ;;
        orderbook <- call (CallGetOrderBook tokenId) (getOrderBook client tokenId) ;;
        ret (toolResult
               (OrderbookData tokenId
                  (match RawOrderbook.bids orderbook with Some b => b | None => [] end)
                  (match RawOrderbook.asks orderbook with Some a => a | None => [] end))
               false)
    end).

Definition polymarket_get_balance (_id : string) (_params : Params.t) : M ToolResult :=
  catch_all (
    call CallInitialize (initialize client) ;;
    call CallGetClient (getClient client) ;;
    funder <- call CallGetFunder (getFunder client) ;;
    balanceData <- call CallGetBalanceAllowance (getBalanceAllowance client) ;;
    ret (toolResult
           (BalanceData funder
              (string_or (RawBalanceAllowance.balance balanceData) "0")
              (string_or (RawBalanceAllowance.allowance balanceData) "0"))
           false)).

(** The position summary an open order contributes. *)
Definition position_of (order : RawOpenOrder.t) : Position.t :=
  {| Position.token_id := RawOpenOrder.asset_id order;
     Position.market := string_or (RawOpenOrder.market order) "Unknown";
     Position.outcome := string_or (RawOpenOrder.outcome order) "Unknown";
     Position.size := RawOpenOrder.original_size order;
     Position.avg_price := RawOpenOrder.price order |}.

(** One turn of the loop that fills [positionMap]. *)
Definition add_position (positionMap : list (string * Position.t)) (order : RawOpenOrder.t)
  : list (string * Position.t) :=
  let tokenId := RawOpenOrder.asset_id order in
  if map_has positionMap tokenId then positionMap
  else map_set positionMap tokenId (position_of order).

Definition format_order (o : RawOpenOrder.t) : OpenOrder.t :=
  {| OpenOrder.id := RawOpenOrder.id o;
     OpenOrder.token_id := RawOpenOrder.asset_id o;
     OpenOrder.side := RawOpenOrder.side o;
     OpenOrder.price := RawOpenOrder.price o;
     OpenOrder.size := RawOpenOrder.original_size o;
     OpenOrder.filled := RawOpenOrder.size_matched o |}.

Definition polymarket_get_positions (_id : string) (_params : Params.t) : M ToolResult :=
  catch_all (
    call CallInitialize (initialize client) ;;
    call CallGetClient (getClient client) ;;
    openOrders <- call CallGetOpenOrders (getOpenOrders client) ;;
    match openOrders with
    | None | Some [] => ret (toolResult (PositionsData [] []) false)
    | Some openOrders =>
        let positionMap := fold_left add_position openOrders [] in
        let formattedOrders := map format_order openOrders in
        ret (toolResult (PositionsData (map_values positionMap) formattedOrders) false)
    end).

Definition format_trade (t : RawTrade.t) : Trade.t :=
  {| Trade.id := RawTrade.id t;
     Trade.token_id := RawTrade.asset_id t;
     Trade.side := RawTrade.side t;
     Trade.price := RawTrade.price t;
     Trade.size := RawTrade.size t;
     Trade.timestamp :=
       match given (RawTrade.timestamp t) with
       | Some ts => ts
       | None => string_or (RawTrade.match_time t) ""
       end;
     Trade.status := RawTrade.status t |}.

Definition polymarket_get_trades (_id : string) (params : Params.t) : M ToolResult :=
  catch_all (
    call CallInitialize (initialize client) ;;
    let limit := number_or (Params.limit params) (of_Z 20) in
    call CallGetClient (getClient client) ;;
    allTrades <- call CallGetTrades (getTrades client) ;;
    let trades := slice0 (match allTrades with Some l => l | None => [] end) limit in
    let formatted := map format_trade trades in
    ret (toolResult (TradeListData formatted) false)).

(** The four checks of [polymarket_place_order], in the order of the
    source: the message of the first one that fails, or the token id and
    the side they let through. *)
Definition validate_order (params : Params.t) : string + (string * string) :=
  let size := parseFloat_param (Params.size params) in
  let price := parseFloat_param (Params.price params) in
  match given (Params.token_id params) with
  | None => inl "token_id is required"
  | Some tokenId =>
      match given (Params.side params) with
      | None => inl "side is required (BUY or SELL)"
      | Some side =>
          if isNaN size || ltb size (of_Z 5) then inl "size must be at least 5"
          else if isNaN price || leb price (of_Z 0) || geb price (of_Z 1) then
            inl "price must be between 0 and 1 (exclusive)"
          else inr (tokenId, side)
      end
  end.

(** The inner [try] of [polymarket_place_order]: tick size and
    negative-risk flag of the market, or the defaults when the fetch
    throws. *)
Definition market_info (tokenId : string) : M (number * bool) :=
  try_catch (
    marketInfo <- call (CallGetMarket tokenId) (getMarket client tokenId) ;;
    ret (number_or (RawMarketInfo.minimum_tick_size marketInfo) default_tick_size,
         match RawMarketInfo.neg_risk marketInfo with Some b => b | None => false end))
  (fun _ => ret (default_tick_size, false)).

(** The [orderArgs] object of [polymarket_place_order]. *)
Definition order_args (params : Params.t) (tokenId side : string) : OrderArgs :=
  {| tokenID := tokenId;
     side := if (side =? "BUY")%string then BUY else SELL;
     size := parseFloat_param (Params.size params);
     price := parseFloat_param (Params.price params);
     feeRateBps := of_Z 0 |}.

(** The object [polymarket_place_order] hands to [toolResult]. *)
Definition order_result (params : Params.t) (tokenId side : string)
  (tickSize : number) (negRisk : bool) (response : RawOrderResponse.t) : OrderResult.t :=
  {| OrderResult.order_id := string_or (RawOrderResponse.orderID response) "";
     OrderResult.status := string_or (RawOrderResponse.status response) "unknown";
     OrderResult.message := RawOrderResponse.errorMsg response;
     OrderResult.order_details :=
       {| OrderDetails.token_id := tokenId;
          OrderDetails.side := side;
          OrderDetails.size := Number_toString (parseFloat_param (Params.size params));
          OrderDetails.price := Number_toString (parseFloat_param (Params.price params));
          OrderDetails.tick_size := tickSize;
          OrderDetails.neg_risk := negRisk |} |}.

Definition polymarket_place_order (_id : string) (params : Params.t) : M ToolResult :=
  catch_all (
    call CallInitialize (initialize client) ;;
    call CallEnsureWriteAccess (ensureWriteAccess client) ;;
    match validate_order params with
    | inl message => ret (errorResult message)
    | inr (tokenId, side) =>
        call CallGetClient (getClient client) ;;
        info <- market_info tokenId ;;
        let tickSize := fst info in
        let negRisk := snd info in
        let orderArgs := order_args params tokenId side in
        signedOrder <- call (CallCreateOrder orderArgs) (createOrder client orderArgs) ;;
        response <- call (CallPostOrder signedOrder) (postOrder client signedOrder) ;;
        ret (toolResult
               (OrderData (order_result params tokenId side tickSize negRisk response))
               false)
    end).

Definition polymarket_cancel_order (_id : string) (params : Params.t) : M ToolResult :=
  catch_all (
    call CallInitialize (initialize client) ;;
    call CallEnsureWriteAccess (ensureWriteAccess client) ;;
    match given (Params.order_id params) with
    | None => ret (errorResult "order_id is required")
    | Some orderId =>
        call CallGetClient (getClient client) ;;
        response <- call (CallCancelOrder orderId) (cancelOrder client orderId) ;;
        ret (toolResult (CancelData orderId "cancelled" response) false)
    end).

(** A tool as [createPolymarketTools] returns it.  The description and
    the parameter schema are documentation for the host and are left out. *)
Record Tool : Type := {
  name : string;
  execute : string -> Params.t -> M ToolResult
}.

Definition createPolymarketTools : list Tool :=
  [ {| name := "polymarket_get_markets"; execute := polymarket_get_markets |};
    {| name := "polymarket_get_market"; execute := polymarket_get_market |};
    {| name := "polymarket_get_orderbook"; execute := polymarket_get_orderbook |};
    {| name := "polymarket_get_balance"; execute := polymarket_get_balance |};
    {| name := "polymarket_get_positions"; execute := polymarket_get_positions |};
    {| name := "polymarket_get_trades"; execute := polymarket_get_trades |};
    {| name := "polymarket_place_order"; execute := polymarket_place_order |};
    {| name := "polymarket_cancel_order"; execute := polymarket_cancel_order |} ].

End Tools.

(** ** index.ts *)

Module PluginConfig.
Record t : Type := {
  privateKey : option string;
  funder : option string;
  apiKey : option string;
  apiSecret : option string;
  passphrase : option string;
  chainId : option number;
  readonly : option bool
}.
Definition empty : t :=
  {| privateKey := None; funder := None; apiKey := None; apiSecret := None;
     passphrase := None; chainId := None; readonly := None |}.
End PluginConfig.

(** The argument [activate] builds for [createConfig]. *)
Module ConfigInput.
Record t : Type := {
  privateKey : string;
  funder : option string;
  apiKey : option string;
  apiSecret : option string;
  passphrase : option string;
  chainId : number;
  readonly : bool
}.
End ConfigInput.

(** An argument the host passes to a registered [execute]. *)
Inductive HostArg : Type :=
| ArgString (s : string)
| ArgObject (params : Params.t)
| ArgOther.

(** What [extractParams] returns: the parameters as a record of the
    properties an [execute] reads, or the text the host passed where the
    parameters belong. *)
Inductive Extracted : Type :=
| ParamsRecord (params : Params.t)
| ParamsText (text : string).

(** [(a as Record<string, unknown>) || {}]: an object is returned as it
    is, and so is a text that is not empty; the empty text gives [{}].
    A value that is neither (a number, a boolean, [null], [undefined])
    is [{}] or has none of the properties an [execute] reads. *)
Definition as_params (a : HostArg) : Extracted :=
  match a with
  | ArgObject p => ParamsRecord p
  | ArgString s => if (s =? "")%string then ParamsRecord Params.empty else ParamsText s
  | ArgOther => ParamsRecord Params.empty
  end.

Definition extractParams (args : list HostArg) : Extracted :=
  match args with
  | ArgString _ :: a :: _ => as_params a
  | ArgObject p :: _ => ParamsRecord p
  | _ => ParamsRecord Params.empty
  end.

(** What [activate] hands to [ctx.registerTool] (description and schema
    left out, as in [Tool]). *)
Record RegisteredTool : Type := {
  registered_name : string;
  registered_execute : list HostArg -> M ToolResult
}.

(** A line written by [log]: through [ctx.log], or on the console. *)
Inductive LogLine : Type :=
| HostLog (level message : string)
| ConsoleLog (text : string).

Record PluginContext : Type := {
  pluginConfig : option PluginConfig.t;
  registerTool : RegisteredTool -> thrown + unit;
  has_log : bool
}.

(** What a run of [activate] leaves behind: the tools the host took, in
    order, and the lines logged. *)
Record Activation : Type := {
  registered : list RegisteredTool;
  logged : list LogLine
}.

Definition log (ctx : PluginContext) (level message : string) : LogLine :=
  if has_log ctx then HostLog level message
  else ConsoleLog ("[polymarket] [" ++ level ++ "] " ++ message).

(** [ctx.pluginConfig || {}] *)
Definition plugin_config (ctx : PluginContext) : PluginConfig.t :=
  match pluginConfig ctx with
  | Some c => c
  | None => PluginConfig.empty
  end.

(** [a || b] on two strings that may be missing. *)
Definition first_given (a b : option string) : option string :=
  match given a with
  | Some x => Some x
  | None => b
  end.

(** The [execute] that [activate] registers.  The tools are embedded on
    records of parameters: the run of a tool that is handed a text in
    their place is left out ([Unmodelled]). *)
Definition wrap (tool : Tool) : RegisteredTool :=
  {| registered_name := name tool;
     registered_execute := fun args =>
       let params := extractParams args in
       let toolCallId :=
         match args with
         | ArgString s :: _ => s
         | _ => "unknown"
         end in
       match params with
       | ParamsRecord params => execute tool toolCallId params
       | ParamsText _ => lift Unmodelled
       end |}.

(** The test that makes the registration loop skip a tool. *)
Definition skipped (readonly : bool) (tool : Tool) : bool :=
  readonly && ((name tool =? "polymarket_place_order")%string
               || (name tool =? "polymarket_cancel_order")%string).

(** The registration loop: the tools the host took before the loop ended,
    and what [ctx.registerTool] threw if it ended early. *)
Fixpoint register_tools (ctx : PluginContext) (readonly : bool) (tools : list Tool)
  : list RegisteredTool * option thrown :=
  match tools with
  | [] => ([], None)
  | tool :: rest =>
      if skipped readonly tool then register_tools ctx readonly rest
      else
        match registerTool ctx (wrap tool) with
        | inl e => ([], Some e)
        | inr _ =>
            let '(taken, e) := register_tools ctx readonly rest in
            (wrap tool :: taken, e)
        end
  end.

Section Activate.

Variable JSON_parse : string -> option value.
Variable Number_toString : number -> string.

(** [parseInt(s, 10)] and [process.env]. *)
Variable parseInt10 : string -> number.
Variable process_env : string -> option string.

(** The configuration package: the type [createConfig] returns, its
    [readonly] property, [createConfig] itself, and the constructor of
    the client. *)
Variable Config : Type.
Variable config_readonly : Config -> bool.
Variable createConfig : ConfigInput.t -> thrown + Config.
Variable ClobClientWrapper : Config -> thrown + Env.

Definition config_input (pluginConfig : PluginConfig.t) (privateKey : string)
  : ConfigInput.t :=
  {| ConfigInput.privateKey := privateKey;
     ConfigInput.funder :=
       first_given (PluginConfig.funder pluginConfig) (process_env "POLYMARKET_FUNDER");
     ConfigInput.apiKey :=
       first_given (PluginConfig.apiKey pluginConfig) (process_env "POLYMARKET_API_KEY");
     ConfigInput.apiSecret :=
       first_given (PluginConfig.apiSecret pluginConfig) (process_env "POLYMARKET_API_SECRET");
     ConfigInput.passphrase :=
       first_given (PluginConfig.passphrase pluginConfig) (process_env "POLYMARKET_PASSPHRASE");
     ConfigInput.chainId :=
       match PluginConfig.chainId pluginConfig with
       | Some n =>
           if JsNumber.truthy n then n
           else parseInt10 (string_or (process_env "POLYMARKET_CHAIN_ID") "137")
       | None => parseInt10 (string_or (process_env "POLYMARKET_CHAIN_ID") "137")
       end;
     ConfigInput.readonly :=
       match PluginConfig.readonly pluginConfig with
       | Some true => true
       | _ =>
           match process_env "POLYMARKET_READONLY" with
           | Some s => (toLowerCase s =? "true")%string
           | None => false
           end
       end |}.

Definition activate (ctx : PluginContext) : Activation :=
  let pluginConfig := plugin_config ctx in
  match given (first_given (PluginConfig.privateKey pluginConfig)
                 (process_env "POLYMARKET_PRIVATE_KEY")) with
  | None =>
      {| registered := [];
         logged := [log ctx "error"
           "privateKey is required (via plugin config or POLYMARKET_PRIVATE_KEY env var)"] |}
  | Some privateKey =>
      let failed (taken : list RegisteredTool) (e : thrown) :=
        {| registered := taken;
           logged := [log ctx "error" ("Failed to initialize: " ++ error_message e)] |} in
      match createConfig (config_input pluginConfig privateKey) with
      | inl e => failed [] e
      | inr config =>
          match ClobClientWrapper config with
          | inl e => failed [] e
          | inr client =>
              let tools := createPolymarketTools JSON_parse Number_toString client in
              match register_tools ctx (config_readonly config) tools with
              | (taken, Some e) => failed taken e
              | (taken, None) => {| registered := taken; logged := [] |}
              end
          end
      end
  end.

End Activate.

(** ** A reference [JSON.parse]

    The tools are stated over any [JSON_parse]; this parser of the JSON
    grammar supplies one to run them on concrete payloads.  Code units
    stay below 256: a [\u] escape above that is not read. *)

Module Json.

Definition quote : ascii := "034"%char.
Definition backslash : ascii := "092"%char.

Definition is_ws (c : ascii) : bool :=
  let n := nat_of_ascii c in
  ((n =? 32) || (n =? 9) || (n =? 10) || (n =? 13))%nat.

Fixpoint skip_ws (s : string) : string :=
  match s with
  | String c r => if is_ws c then skip_ws r else s
  | EmptyString => s
  end.

Definition hex_of (c : ascii) : option nat :=
  let n := nat_of_ascii c in
  if ((48 <=? n) && (n <=? 57))%nat then Some (n - 48)%nat
  else if ((65 <=? n) && (n <=? 70))%nat then Some (n - 55)%nat
  else if ((97 <=? n) && (n <=? 102))%nat then Some (n - 87)%nat
  else None.

Definition hex4 (a b c d : ascii) : option nat :=
  match hex_of a, hex_of b, hex_of c, hex_of d with
  | Some w, Some x, Some y, Some z => Some (((w * 16 + x) * 16 + y) * 16 + z)%nat
  | _, _, _, _ => None
  end.

Definition escape_of (c : ascii) : option ascii :=
  if (c =? quote)%char then Some quote
  else if (c =? backslash)%char then Some backslash
  else if (c =? "/")%char then Some "/"%char
  else if (c =? "b")%char then Some "008"%char
  else if (c =? "f")%char then Some "012"%char
  else if (c =? "n")%char then Some "010"%char
  else if (c =? "r")%char then Some "013"%char
  else if (c =? "t")%char then Some "009"%char
  else None.

Definition push (c : ascii) (r : option (string * string)) : option (string * string) :=
  match r with
  | Some (text, rest) => Some (String c text, rest)
  | None => None
  end.

(** The characters of a string literal up to its closing quote (the
    opening one already read), and what follows it. *)
Fixpoint read_string (s : string) : option (string * string) :=
  match s with
  | EmptyString => None
  | String c r =>
      if (c =? quote)%char then Some (EmptyString, r)
      else if (c =? backslash)%char then
        match r with
        | String e r' =>
            match escape_of e with
            | Some x => push x (read_string r')
            | None =>
                if (e =? "u")%char then
                  match r' with
                  | String h1 (String h2 (String h3 (String h4 r''))) =>
                      match hex4 h1 h2 h3 h4 with
                      | Some n =>
                          if (n <? 256)%nat then push (ascii_of_nat n) (read_string r'')
                          else None
                      | None => None
                      end
                  | _ => None
                  end
                else None
            end
        | EmptyString => None
        end
      else if (nat_of_ascii c <? 32)%nat then None
      else push c (read_string r)
  end.

Definition starts_with_digit (s : string) : bool :=
  match s with
  | String c _ => match digit_of c with Some _ => true | None => false end
  | EmptyString => false
  end.

(** A JSON number at the head of [s]. *)
Definition read_number (s : string) : option (number * string) :=
  let '(negative, s0) :=
    match s with
    | String "-" t => (true, t)
    | _ => (false, s)
    end in
  let '(ip, ni, s1) := read_digits s0 0 0 in
  if (ni =? 0) || ((1 <? ni) && String.prefix "0" s0) then None
  else
    let frac :=
      match s1 with
      | String "." r =>
          let '(m, nf, s2) := read_digits r ip 0 in
          if nf =? 0 then None else Some (m, nf, s2)
      | _ => Some (ip, 0, s1)
      end in
    match frac with
    | None => None
    | Some (m, nf, s2) =>
        match s2 with
        | String c r =>
            if (c =? "e")%char || (c =? "E")%char then
              let '(eneg, r') :=
                match r with
                | String "+" t => (false, t)
                | String "-" t => (true, t)
                | _ => (false, r)
                end in
              let '(x, count, s3) := read_digits r' 0 0 in
              if count =? 0 then None
              else Some (of_decimal negative m ((if eneg then - x else x) - nf), s3)
            else Some (of_decimal negative m (- nf), s2)
        | EmptyString => Some (of_decimal negative m (- nf), s2)
        end
    end.

Definition expect (word : string) (v : value) (s : string) : option (value * string) :=
  if String.prefix word s
  then Some (v, String.substring (String.length word) (String.length s - String.length word) s)
  else None.

Fixpoint read_value (fuel : nat) (s : string) : option (value * string) :=
  match fuel with
  | O => None
  | S fuel' =>
      let s := skip_ws s in
      match s with
      | EmptyString => None
      | String c r =>
          if (c =? quote)%char then
            match read_string r with
            | Some (text, rest) => Some (VString text, rest)
            | None => None
            end
          else if (c =? "[")%char then
            match skip_ws r with
            | String "]" rest => Some (VArray [], rest)
            | _ => read_items fuel' r []
            end
          else if (c =? "{")%char then
            match skip_ws r with
            | String "}" rest => Some (VObject [], rest)
            | _ => read_members fuel' r []
            end
          else if (c =? "n")%char then expect "null" VNull s
          else if (c =? "t")%char then expect "true" (VBoolean true) s
          else if (c =? "f")%char then expect "false" (VBoolean false) s
          else
            match read_number s with
            | Some (n, rest) => Some (VNumber n, rest)
            | None => None
            end
      end
  end
with read_items (fuel : nat) (s : string) (acc : list value) : option (value * string) :=
  match fuel with
  | O => None
  | S fuel' =>
      match read_value fuel' s with
      | Some (v, rest) =>
          match skip_ws rest with
          | String "," rest' => read_items fuel' rest' (v :: acc)
          | String "]" rest' => Some (VArray (rev (v :: acc)), rest')
          | _ => None
          end
      | None => None
      end
  end
with read_members (fuel : nat) (s : string) (acc : list (string * value))
  : option (value * string) :=
  match fuel with
  | O => None
  | S fuel' =>
      match skip_ws s with
      | String c r =>
          if (c =? quote)%char then
            match read_string r with
            | Some (key, rest) =>
                match skip_ws rest with
                | String ":" rest' =>
                    match read_value fuel' rest' with
                    | Some (v, rest'') =>
                        match skip_ws rest'' with
                        | String "," t => read_members fuel' t (map_set acc key v)
                        | String "}" t => Some (VObject (map_set acc key v), t)
                        | _ => None
                        end
                    | None => None
                    end
                | _ => None
                end
            | None => None
            end
          else None
      | EmptyString => None
      end
  end.

(** [JSON.parse(text)]: one value, white space around it, nothing else. *)
Definition parse (text : string) : option value :=
  match read_value (2 * String.length text + 2) text with
  | Some (v, rest) =>
      match skip_ws rest with
      | EmptyString => Some v
      | _ => None
      end
  | None => None
  end.

(** The text of a string literal, quotes included. *)
Fixpoint escape (s : string) : string :=
  match s with
  | EmptyString => EmptyString
  | String c r =>
      if (c =? quote)%char || (c =? backslash)%char then String backslash (String c (escape r))
      else String c (escape r)
  end.

Definition string_literal (s : string) : string :=
  String quote (escape s ++ String quote EmptyString).

(** No control character: the strings [escape] is enough for. *)
Fixpoint printable (s : string) : bool :=
  match s with
  | EmptyString => true
  | String c r => (32 <=? nat_of_ascii c)%nat && printable r
  end.

(** The text of an array of strings, as [JSON.stringify] writes it when
    the strings are [printable]. *)
Definition array_literal (items : list string) : string :=
  "[" ++ String.concat "," (map string_literal items) ++ "]".

End Json.


(** ** Sample collaborators and payloads *)

Module Sample.

(** A stand-in for [Number.prototype.toString]: the binary form. *)
Definition toString (n : number) : string :=
  match n with
  | NaN => "NaN"
  | Infinity true => "-Infinity"
  | Infinity false => "Infinity"
  | Finite m e =>
      NilZero.string_of_int (Z.to_int m) ++ "p" ++ NilZero.string_of_int (Z.to_int e)
  end.

Definition response {B : Type} (code : Z) (text : string) (body : B) : Response B :=
  {| ok := (200 <=? code) && (code <=? 299);
     status := code;
     statusText := text;
     json := inr body |}.

Definition market (tokenIds outcomes prices : value) (is_closed : bool) : GammaMarket.t :=
  {| GammaMarket.conditionId := "0xabc";
     GammaMarket.question := "Will it rain?";
     GammaMarket.slug := "will-it-rain";
     GammaMarket.volume := "1200.5";
     GammaMarket.endDate := "2030-01-01";
     GammaMarket.active := true;
     GammaMarket.closed := is_closed;
     GammaMarket.clobTokenIds := tokenIds;
     GammaMarket.outcomes := outcomes;
     GammaMarket.outcomePrices := prices |}.

Definition order (order_id token : string) (order_price order_size : string) : RawOpenOrder.t :=
  {| RawOpenOrder.id := order_id;
     RawOpenOrder.asset_id := token;
     RawOpenOrder.side := "BUY";
     RawOpenOrder.price := order_price;
     RawOpenOrder.original_size := order_size;
     RawOpenOrder.size_matched := "0";
     RawOpenOrder.outcome := Some "Yes";
     RawOpenOrder.market := None |}.

(** A client on which every call returns. *)
Definition client : Env :=
  {| initialize := inr tt;
     ensureWriteAccess := inr tt;
     getGammaApiUrl := inr "https://gamma-api.polymarket.com";
     getFunder := inr "0xfunder";
     getClient := inr tt;
     fetch_markets := fun _ => inr (response 200 "OK" (Some []));
     fetch_market := fun _ => inr (response 404 "Not Found" None);
     getOrderBook := fun _ => inr {| RawOrderbook.bids := None; RawOrderbook.asks := None |};
     getBalanceAllowance :=
       inr {| RawBalanceAllowance.balance := None; RawBalanceAllowance.allowance := None |};
     getOpenOrders := inr (Some []);
     getTrades := inr None;
     getMarket := fun _ =>
       inr {| RawMarketInfo.minimum_tick_size := None; RawMarketInfo.neg_risk := None |};
     createOrder := fun _ => inr {| signed := "0xsigned" |};
     postOrder := fun _ =>
       inr {| RawOrderResponse.orderID := Some "order-1";
              RawOrderResponse.status := Some "live";
              RawOrderResponse.errorMsg := None |};
     cancelOrder := fun _ => inr VNull |}.

(** The same client with one method replaced. *)
Definition with_ensureWriteAccess (c : Env) (r : thrown + unit) : Env :=
  {| initialize := initialize c; ensureWriteAccess := r;
     getGammaApiUrl := getGammaApiUrl c; getFunder := getFunder c;
     getClient := getClient c; fetch_markets := fetch_markets c;
     fetch_market := fetch_market c; getOrderBook := getOrderBook c;
     getBalanceAllowance := getBalanceAllowance c; getOpenOrders := getOpenOrders c;
     getTrades := getTrades c; getMarket := getMarket c;
     createOrder := createOrder c; postOrder := postOrder c;
     cancelOrder := cancelOrder c |}.

Definition with_getMarket (c : Env) (r : string -> thrown + RawMarketInfo.t) : Env :=
  {| initialize := initialize c; ensureWriteAccess := ensureWriteAccess c;
     getGammaApiUrl := getGammaApiUrl c; getFunder := getFunder c;
     getClient := getClient c; fetch_markets := fetch_markets c;
     fetch_market := fetch_market c; getOrderBook := getOrderBook c;
     getBalanceAllowance := getBalanceAllowance c; getOpenOrders := getOpenOrders c;
     getTrades := getTrades c; getMarket := r;
     createOrder := createOrder c; postOrder := postOrder c;
     cancelOrder := cancelOrder c |}.

Definition with_fetch_markets (c : Env)
  (r : Url -> thrown + Response (option (list GammaMarket.t))) : Env :=
  {| initialize := initialize c; ensureWriteAccess := ensureWriteAccess c;
     getGammaApiUrl := getGammaApiUrl c; getFunder := getFunder c;
     getClient := getClient c; fetch_markets := r;
     fetch_market := fetch_market c; getOrderBook := getOrderBook c;
     getBalanceAllowance := getBalanceAllowance c; getOpenOrders := getOpenOrders c;
     getTrades := getTrades c; getMarket := getMarket c;
     createOrder := createOrder c; postOrder := postOrder c;
     cancelOrder := cancelOrder c |}.

Definition with_fetch_market (c : Env)
  (r : Url -> thrown + Response (option GammaMarket.t)) : Env :=
  {| initialize := initialize c; ensureWriteAccess := ensureWriteAccess c;
     getGammaApiUrl := getGammaApiUrl c; getFunder := getFunder c;
     getClient := getClient c; fetch_markets := fetch_markets c;
     fetch_market := r; getOrderBook := getOrderBook c;
     getBalanceAllowance := getBalanceAllowance c; getOpenOrders := getOpenOrders c;
     getTrades := getTrades c; getMarket := getMarket c;
     createOrder := createOrder c; postOrder := postOrder c;
     cancelOrder := cancelOrder c |}.

Definition with_getOpenOrders (c : Env) (r : thrown + option (list RawOpenOrder.t)) : Env :=
  {| initialize := initialize c; ensureWriteAccess := ensureWriteAccess c;
     getGammaApiUrl := getGammaApiUrl c; getFunder := getFunder c;
     getClient := getClient c; fetch_markets := fetch_markets c;
     fetch_market := fetch_market c; getOrderBook := getOrderBook c;
     getBalanceAllowance := getBalanceAllowance c; getOpenOrders := r;
     getTrades := getTrades c; getMarket := getMarket c;
     createOrder := createOrder c; postOrder := postOrder c;
     cancelOrder := cancelOrder c |}.

Definition with_getTrades (c : Env) (r : thrown + option (list RawTrade.t)) : Env :=
  {| initialize := initialize c; ensureWriteAccess := ensureWriteAccess c;
     getGammaApiUrl := getGammaApiUrl c; getFunder := getFunder c;
     getClient := getClient c; fetch_markets := fetch_markets c;
     fetch_market := fetch_market c; getOrderBook := getOrderBook c;
     getBalanceAllowance := getBalanceAllowance c; getOpenOrders := getOpenOrders c;
     getTrades := r; getMarket := getMarket c;
     createOrder := createOrder c; postOrder := postOrder c;
     cancelOrder := cancelOrder c |}.

Definition trade (trade_id : string) (primary secondary : option string) : RawTrade.t :=
  {| RawTrade.id := trade_id;
     RawTrade.asset_id := "tok";
     RawTrade.side := "BUY";
     RawTrade.price := "0.5";
     RawTrade.size := "10";
     RawTrade.timestamp := primary;
     RawTrade.match_time := secondary;
     RawTrade.status := "MATCHED" |}.

(** Order parameters. *)
Definition order_params (token order_side order_size order_price : option string)
  : Params.t :=
  {| Params.limit := None; Params.offset := None; Params.search := None;
     Params.condition_id := None; Params.token_id := token;
     Params.side := order_side; Params.size := order_size;
     Params.price := order_price; Params.order_id := None |}.

Definition cancel_params (order : option string) : Params.t :=
  {| Params.limit := None; Params.offset := None; Params.search := None;
     Params.condition_id := None; Params.token_id := None;
     Params.side := None; Params.size := None;
     Params.price := None; Params.order_id := order |}.

Definition market_params (condition : option string) : Params.t :=
  {| Params.limit := None; Params.offset := None; Params.search := None;
     Params.condition_id := condition; Params.token_id := None;
     Params.side := None; Params.size := None;
     Params.price := None; Params.order_id := None |}.

Definition list_params (n : option number) : Params.t :=
  {| Params.limit := n; Params.offset := None; Params.search := None;
     Params.condition_id := None; Params.token_id := None;
     Params.side := None; Params.size := None;
     Params.price := None; Params.order_id := None |}.

(** A host that takes every tool, configured read-only or not, and a
    configuration package that keeps the flag it is given. *)
Definition host (flag : bool) : PluginContext :=
  {| pluginConfig :=
       Some {| PluginConfig.privateKey := Some "0xkey";
               PluginConfig.funder := None;
               PluginConfig.apiKey := None;
               PluginConfig.apiSecret := None;
               PluginConfig.passphrase := None;
               PluginConfig.chainId := None;
               PluginConfig.readonly := Some flag |};
     registerTool := fun _ => inr tt;
     has_log := false |}.

Definition no_env (variable : string) : option string := None.

Definition createConfig (input : ConfigInput.t) : thrown + bool :=
  inr (ConfigInput.readonly input).

(** A run of [activate] on that host ([parseFloat] standing in for
    [parseInt], which agrees with it on the chain id ["137"]). *)
Definition activation (flag : bool) : Activation :=
  activate Json.parse toString parseFloat no_env bool (fun b => b) createConfig
    (fun _ => inr client) (host flag).

End Sample.

(** A raw market with its three list fields replaced. *)
Definition with_lists (m : GammaMarket.t) (tokenIds outcomes prices : value)
  : GammaMarket.t :=
  {| GammaMarket.conditionId := GammaMarket.conditionId m;
     GammaMarket.question := GammaMarket.question m;
     GammaMarket.slug := GammaMarket.slug m;
     GammaMarket.volume := GammaMarket.volume m;
     GammaMarket.endDate := GammaMarket.endDate m;
     GammaMarket.active := GammaMarket.active m;
     GammaMarket.closed := GammaMarket.closed m;
     GammaMarket.clobTokenIds := tokenIds;
     GammaMarket.outcomes := outcomes;
     GammaMarket.outcomePrices := prices |}.

(** ** Vocabulary of the properties *)

(** What a rejected request may still have called: the two preliminary
    methods of the client wrapper. *)
Definition preliminary (c : Call) : Prop :=
  c = CallInitialize \/ c = CallEnsureWriteAccess.

(** What the spec says of a rejected request, taken to the letter: the
    validation message comes back and no call at all was made. *)
Definition rejected_without_any_call (run : M ToolResult) (message : string) : Prop :=
  result run = Returned (errorResult message) /\ calls run = [].

(** The behaviour of an operation whose parameters fail the local check
    with [message]. *)
Definition rejected_locally (client : Env) (run : M ToolResult) (message : string) : Prop :=
  (forall c, In c (calls run) -> preliminary c)
  /\ (initialize client = inr tt -> ensureWriteAccess client = inr tt ->
      run = ([(CallInitialize, None); (CallEnsureWriteAccess, None)],
             Returned (errorResult message)))
  /\ (forall e, initialize client = inl e ->
      run = ([(CallInitialize, Some e)], Returned (errorResult (error_message e))))
  /\ (forall e, initialize client = inr tt -> ensureWriteAccess client = inl e ->
      run = ([(CallInitialize, None); (CallEnsureWriteAccess, Some e)],
             Returned (errorResult (error_message e)))).

(** The size rule in the words of the spec: size parses as a finite
    number and is at least 5. *)
Definition spec_size_rule (x : number) : Prop :=
  isFinite x = true /\ at_least 5 x.

(** [validate_order] lets the request through. *)
Definition accepted (params : Params.t) : Prop :=
  exists tokenId side, validate_order params = inr (tokenId, side).

(** The two numeric checks of [validate_order]. *)
Definition size_refused (params : Params.t) : bool :=
  let size := parseFloat_param (Params.size params) in
  isNaN size || ltb size (of_Z 5).

Definition price_refused (params : Params.t) : bool :=
  let price := parseFloat_param (Params.price params) in
  isNaN price || leb price (of_Z 0) || geb price (of_Z 1).

Definition write_tool (tool_name : string) : bool :=
  (tool_name =? "polymarket_place_order")%string
  || (tool_name =? "polymarket_cancel_order")%string.

(** The not-found result in the words of the spec: a normal result, one
    without the error flag. *)
Definition normal_result (run : M ToolResult) : Prop :=
  exists r, result run = Returned r /\ isError r = false.

(** A page with an open market, a closed one and one without token ids. *)
Definition mixed_page : list GammaMarket.t :=
  [ Sample.market (VString (Json.array_literal ["1"; "2"])) VUndefined VUndefined false;
    Sample.market (VString (Json.array_literal ["3"; "4"])) VUndefined VUndefined true;
    Sample.market VUndefined VUndefined VUndefined false ].

(** The token ids of a raw market, as [formatMarket] decodes them. *)
Definition token_ids (JSON_parse : string -> option value) (m : GammaMarket.t) : value :=
  parseJsonField JSON_parse (GammaMarket.clobTokenIds m) (VArray []).

(** A page of two open markets whose token id lists are empty: one as
    the empty array, one as the text [[]]. *)
Definition page_without_token_ids : list GammaMarket.t :=
  [ Sample.market (VArray []) (VArray [VString "Yes"; VString "No"])
      (VArray [VString "0.5"; VString "0.5"]) false;
    Sample.market (VString "[]") (VString (Json.array_literal ["Yes"; "No"]))
      (VString (Json.array_literal ["0.5"; "0.5"])) false ].

(** The token [formatMarket] builds at index [i] from three arrays. *)
Definition token_of (os ps ts : list value) (i : nat) : Token.t :=
  {| Token.token_id := or_else (nth i ts VUndefined) (VString "");
     Token.outcome := nth i os VUndefined;
     Token.price := if truthy (nth i ps VUndefined)
                    then parseFloat_value (nth i ps VUndefined) else zero |}.

(** The fallback of [formatMarket] for the outcomes. *)
Definition yes_no : value := VArray [VString "Yes"; VString "No"].



Definition is_getMarket (c : Call) : bool :=
  match c with
  | CallGetMarket _ => true
  | _ => false
  end.

(** Every collaborator failure other than one of [getMarket] ends the
    run with the error envelope of that failure. *)
Definition surfaces_failures (run : M ToolResult) : Prop :=
  forall c e, In (c, Some e) (trace run) -> is_getMarket c = false ->
  result run = Returned (errorResult (error_message e)).

Ltac settle_failure :=
  unfold surfaces_failures, trace, result; cbn;
  let Hin := fresh "Hin" in
  let Hc := fresh "Hc" in
  intros ? ? Hin Hc;
  repeat match goal with
         | H : _ \/ _ |- _ => destruct H
         | H : False |- _ => destruct H
         | H : (_, _) = (_, _) |- _ => inversion H; subst; clear H
         end;
  try reflexivity; try discriminate.

(** One call of a run: the branch where it throws is settled on the
    spot, the branch where it returns [x] goes on. *)
Tactic Notation "step_call" constr(r) "as" ident(x) :=
  let e := fresh "e" in
  destruct r as [e | x] eqn:?; cbn; [ solve [ settle_failure ] | ].


(** The orders that open a position: those whose token no earlier order
    carries ([seen] holds the tokens met so far). *)
Fixpoint first_orders (seen : list string) (orders : list RawOpenOrder.t)
  : list RawOpenOrder.t :=
  match orders with
  | [] => []
  | o :: rest =>
      if existsb (fun k => (k =? RawOpenOrder.asset_id o)%string) seen
      then first_orders seen rest
      else o :: first_orders (seen ++ [RawOpenOrder.asset_id o])%list rest
  end.

(** ** Vocabulary of the further properties *)

(** An envelope whose error flag says what it carries: the flag is set
    exactly when the payload is [{ error: message }]. *)
Definition honest (r : ToolResult) : Prop :=
  isError r = true <-> exists message, content r = ErrorData message.

(** The calls that change something at the exchange. *)
Definition order_call (c : Call) : bool :=
  match c with
  | CallCreateOrder _ | CallPostOrder _ | CallCancelOrder _ => true
  | _ => false
  end.

Definition create_call (c : Call) : bool :=
  match c with
  | CallCreateOrder _ => true
  | _ => false
  end.

Definition post_call (c : Call) : bool :=
  match c with
  | CallPostOrder _ => true
  | _ => false
  end.

(** What a call carries of the caller's identifiers: the token id, the
    order id, or the condition id in the path of the address fetched.
    An identifier that is [given] is present and not empty. *)
Definition carries_the_callers_identifier (params : Params.t) (c : Call) : Prop :=
  match c with
  | CallGetOrderBook tokenId | CallGetMarket tokenId =>
      given (Params.token_id params) = Some tokenId
  | CallCreateOrder args => given (Params.token_id params) = Some (tokenID args)
  | CallCancelOrder orderId => given (Params.order_id params) = Some orderId
  | CallFetch url =>
      path url = "/markets"
      \/ exists conditionId,
           given (Params.condition_id params) = Some conditionId
           /\ path url = "/markets/" ++ conditionId
  | _ => True
  end.

(** Read-only mode is asked for: by the plugin configuration, or by the
    environment (in any letter case). *)
Definition asks_readonly (pluginConfig : PluginConfig.t)
  (process_env : string -> option string) : Prop :=
  PluginConfig.readonly pluginConfig = Some true
  \/ exists s, process_env "POLYMARKET_READONLY" = Some s /\ toLowerCase s = "true".

(** An environment that asks for read-only mode in capitals. *)
Definition readonly_env (variable : string) : option string :=
  if (variable =? "POLYMARKET_READONLY")%string then Some "TRUE" else None.

(** The tools the registration loop does not skip. *)
Definition eligible (readonly : bool) (tools : list Tool) : list Tool :=
  filter (fun tool => negb (skipped readonly tool)) tools.

Definition tool_names : list string :=
  [ "polymarket_get_markets"; "polymarket_get_market"; "polymarket_get_orderbook";
    "polymarket_get_balance"; "polymarket_get_positions"; "polymarket_get_trades";
    "polymarket_place_order"; "polymarket_cancel_order" ].

(** The argument lists of the two calling conventions: the parameters
    after a tool call id, or the parameters first. *)
Definition carries_params (args : list HostArg) : bool :=
  match args with
  | ArgString _ :: ArgObject _ :: _ => true
  | ArgObject _ :: _ => true
  | _ => false
  end.

(** The argument lists that put a text that is not empty where the
    parameters belong, after a tool call id. *)
Definition carries_text (args : list HostArg) : bool :=
  match args with
  | ArgString _ :: ArgString s :: _ => negb (s =? "")%string
  | _ => false
  end.

(** [t.timestamp || t.match_time || ""], spelled out. *)
Definition timestamp_rule (t : RawTrade.t) : string :=
  match RawTrade.timestamp t with
  | Some ts => if (ts =? "")%string
               then match RawTrade.match_time t with Some mt => mt | None => "" end
               else ts
  | None => match RawTrade.match_time t with Some mt => mt | None => "" end
  end.



(** [n || fallback] on a whole number that may be missing. *)
Definition requested (n : option Z) (fallback : Z) : Z :=
  match n with
  | Some z => if z =? 0 then fallback else z
  | None => fallback
  end.

(** [xs.slice(0, z)] for a whole number [z]: the first [z] entries, or
    all but the last [-z] when [z] is negative. *)
Definition cut {A : Type} (xs : list A) (z : Z) : list A :=
  if z <? 0 then firstn (List.length xs - Z.to_nat (- z)) xs
  else firstn (Z.to_nat z) xs.

(** Walking a run call by call: each collaborator reply, each test on the
    parameters and each test on a reply is split in two.  [quiet] reduces
    the monad and leaves the data alone. *)
Ltac split_reply r :=
  lazymatch r with
  | inl _ => fail
  | inr _ => fail
  | _ => destruct r as [? | ?] eqn:?
  end.

Ltac quiet :=
  cbn -[of_Z mul number_or slice0 filter toLowerCase omap formatMarket
        order_args order_result validate_order fold_left map append
        string_or default_tick_size].

Ltac walk :=
  repeat (quiet;
    match goal with
    | |- context [call _ ?r] => split_reply r
    | |- context [given ?s] =>
        lazymatch s with
        | Some _ => fail
        | None => fail
        | _ => destruct (given s) as [? | ] eqn:?
        end
    | |- context [validate_order ?p] => destruct (validate_order p) as [? | [? ?]] eqn:?
    | |- context [negb (ok ?r)] => destruct (ok r) eqn:?
    | |- context [status ?r =? 404] => destruct (status r =? 404) eqn:?
    | |- context [match ?x with Returned _ => _ | Threw _ => _ | Unmodelled => _ end] =>
        destruct x as [? | ? | ] eqn:?
    | |- context [match ?x with Some _ => _ | None => _ end] =>
        is_var x; destruct x as [? | ]
    | |- context [match ?x with [] => _ | _ :: _ => _ end] =>
        is_var x; destruct x as [ | ? ? ]
    | u : unit |- _ => destruct u
    end); quiet.

Ltac unfold_tools :=
  unfold polymarket_get_markets, polymarket_get_market, polymarket_get_orderbook,
    polymarket_get_balance, polymarket_get_positions, polymarket_get_trades,
    polymarket_place_order, polymarket_cancel_order,
    fetchGammaMarkets, fetchGammaMarket, market_info, catch_all.

(** One goal per tool of [createPolymarketTools]. *)
Ltac each_tool Hin :=
  cbn in Hin;
  repeat (destruct Hin as [<- | Hin]); [ .. | contradiction ]; cbn [execute name].

(** A client whose exchange answers every order with a refusal. *)
Definition refusing_exchange : Env :=
  {| initialize := initialize Sample.client;
     ensureWriteAccess := ensureWriteAccess Sample.client;
     getGammaApiUrl := getGammaApiUrl Sample.client;
     getFunder := getFunder Sample.client;
     getClient := getClient Sample.client;
     fetch_markets := fetch_markets Sample.client;
     fetch_market := fetch_market Sample.client;
     getOrderBook := getOrderBook Sample.client;
     getBalanceAllowance := getBalanceAllowance Sample.client;
     getOpenOrders := getOpenOrders Sample.client;
     getTrades := getTrades Sample.client;
     getMarket := fun _ =>
       inr {| RawMarketInfo.minimum_tick_size := Some (of_decimal false 1 (-3));
              RawMarketInfo.neg_risk := Some true |};
     createOrder := createOrder Sample.client;
     postOrder := fun _ =>
       inr {| RawOrderResponse.orderID := None;
              RawOrderResponse.status := None;
              RawOrderResponse.errorMsg := Some "not enough balance" |};
     cancelOrder := cancelOrder Sample.client |}.


(** * Properties *)

(** ** Validation comes before every exchange call (C1) *)

Lemma rejected_locally_intro (client : Env) (message : string) :
  rejected_locally client
    (catch_all
       (bind (call CallInitialize (initialize client)) (fun _ =>
        bind (call CallEnsureWriteAccess (ensureWriteAccess client)) (fun _ =>
        ret (errorResult message)))))
    message.
Proof.
  unfold rejected_locally, preliminary, calls, trace.
  destruct (initialize client) as [e1 | []];
    [ | destruct (ensureWriteAccess client) as [e2 | []] ]; cbn;
    (split; [ intros c Hin; intuition auto | ]);
    repeat split; intros; try discriminate;
    match goal with
    | H : inl _ = inl _ |- _ => inversion H; subst; reflexivity
    | _ => reflexivity
    end.
Qed.

(** C1 (as the code has it): when the parameters of place-order fail one
    of its four checks, or cancel-order gets no order id, the operation
    has called nothing but [client.initialize()] and
    [client.ensureWriteAccess()] -- so neither [getMarket], [createOrder],
    [postOrder] nor [cancelOrder] -- and, when those two calls return, it
    returns the validation error; when one of them throws, it returns
    that error instead. *)
Theorem rejected_request_never_reaches_the_exchange
  (toStr : number -> string) (client : Env) (id : string) (params : Params.t) :
  (forall message, validate_order params = inl message ->
     rejected_locally client (polymarket_place_order toStr client id params) message)
  /\ (given (Params.order_id params) = None ->
      rejected_locally client (polymarket_cancel_order client id params)
        "order_id is required").
Proof.
  split.
  - intros message Hv. unfold polymarket_place_order. rewrite Hv.
    apply rejected_locally_intro.
  - intros Hv. unfold polymarket_cancel_order. rewrite Hv.
    apply rejected_locally_intro.
Qed.

Lemma rejected_request_witness :
  polymarket_place_order Sample.toString Sample.client "call-1"
    (Sample.order_params (Some "tok") (Some "BUY") (Some "4.99") (Some "0.5"))
  = ([(CallInitialize, None); (CallEnsureWriteAccess, None)],
     Returned (errorResult "size must be at least 5"))
  /\ polymarket_cancel_order Sample.client "call-2" (Sample.cancel_params (Some ""))
     = ([(CallInitialize, None); (CallEnsureWriteAccess, None)],
        Returned (errorResult "order_id is required")).
Proof.
  split.
  - apply (proj1 (rejected_request_never_reaches_the_exchange Sample.toString Sample.client
                    "call-1" (Sample.order_params (Some "tok") (Some "BUY") (Some "4.99") (Some "0.5")))
             "size must be at least 5"); reflexivity.
  - apply (proj2 (rejected_request_never_reaches_the_exchange Sample.toString Sample.client
                    "call-2" (Sample.cancel_params (Some "")))); reflexivity.
Defined.

(** C1, counterexample to the letter of the claim: a cancel with an empty
    order id has already called the client twice when it is rejected, and
    on a client without write access a place-order without token id
    returns the client's error, not the validation error. *)
Lemma rejected_request_has_called_the_client :
  given (Params.order_id (Sample.cancel_params (Some ""))) = None
  /\ ~ rejected_without_any_call
         (polymarket_cancel_order Sample.client "call-2" (Sample.cancel_params (Some "")))
         "order_id is required"
  /\ validate_order (Sample.order_params None (Some "BUY") (Some "10") (Some "0.5"))
     = inl "token_id is required"
  /\ ~ rejected_without_any_call
         (polymarket_place_order Sample.toString
            (Sample.with_ensureWriteAccess Sample.client (inl (ErrorObject "Read-only mode")))
            "call-1" (Sample.order_params None (Some "BUY") (Some "10") (Some "0.5")))
         "token_id is required".
Proof.
  repeat split; try reflexivity; intros [Hr Hc]; vm_compute in Hc; discriminate.
Qed.

(** ** What the comparisons of doubles decide *)

Lemma two_power_positive (k : Z) : (0 < 2 ^ k)%Q.
Proof. apply Qpower_0_lt. reflexivity. Qed.

Lemma value_of_shift (m e k : Z) :
  k <= e -> (value_of m e == inject_Z (m * 2 ^ (e - k)) * 2 ^ k)%Q.
Proof.
  intros Hk. unfold value_of.
  rewrite inject_Z_mult, Zpower_Qpower by lia.
  rewrite <- Qmult_assoc, <- Qpower_plus by discriminate.
  replace (e - k + k) with e by lia. reflexivity.
Qed.

Lemma compare_finite_lt (m1 e1 m2 e2 : Z) :
  compare_finite m1 e1 m2 e2 = Lt <-> (value_of m1 e1 < value_of m2 e2)%Q.
Proof.
  unfold compare_finite.
  set (k := Z.min e1 e2).
  rewrite (value_of_shift m1 e1 k), (value_of_shift m2 e2 k) by (subst k; lia).
  rewrite Qmult_lt_r by apply two_power_positive.
  rewrite <- Zlt_Qlt. rewrite Z.compare_lt_iff. reflexivity.
Qed.

Lemma ltb_finite (m1 e1 m2 e2 : Z) :
  ltb (Finite m1 e1) (Finite m2 e2) = true
  <-> (value_of m1 e1 < value_of m2 e2)%Q.
Proof.
  rewrite <- compare_finite_lt. cbn.
  destruct (compare_finite m1 e1 m2 e2); split; congruence.
Qed.

Lemma ltb_finite_false (m1 e1 m2 e2 : Z) :
  ltb (Finite m1 e1) (Finite m2 e2) = false
  <-> (value_of m2 e2 <= value_of m1 e1)%Q.
Proof.
  split.
  - intros H. apply Qnot_lt_le. intros Hlt. apply ltb_finite in Hlt. congruence.
  - intros H. destruct (ltb (Finite m1 e1) (Finite m2 e2)) eqn:E; [ | reflexivity ].
    apply ltb_finite in E. exfalso. exact (Qle_not_lt _ _ H E).
Qed.

Lemma value_of_integer (z : Z) : (value_of z 0 == inject_Z z)%Q.
Proof. unfold value_of. cbn. apply Qmult_1_r. Qed.

(** The size check lets through exactly [+Infinity] and the finite
    values from 5 up. *)
Lemma size_check_spec (x : number) :
  isNaN x || ltb x (of_Z 5) = false <-> at_least 5 x.
Proof.
  change (of_Z 5) with (Finite 5 0).
  destruct x as [ | [ | ] | m e ]; cbn [isNaN orb at_least].
  - split; [ discriminate | tauto ].
  - split; [ discriminate | tauto ].
  - split; [ tauto | reflexivity ].
  - rewrite ltb_finite_false, value_of_integer. reflexivity.
Qed.

(** The price check lets through exactly the finite values strictly
    between 0 and 1. *)
Lemma price_check_spec (x : number) :
  isNaN x || leb x (of_Z 0) || geb x (of_Z 1) = false <-> strictly_between 0 1 x.
Proof.
  change (of_Z 0) with (Finite 0 0). change (of_Z 1) with (Finite 1 0).
  destruct x as [ | [ | ] | m e ]; cbn [isNaN orb strictly_between].
  - split; [ discriminate | tauto ].
  - split; [ discriminate | tauto ].
  - split; [ discriminate | tauto ].
  - unfold geb, leb.
    rewrite <- (ltb_finite 0 0 m e), <- (ltb_finite m e 1 0).
    destruct (ltb (Finite 0 0) (Finite m e)), (ltb (Finite m e) (Finite 1 0));
      cbn; split; intros; try discriminate; try tauto;
      match goal with H : _ /\ _ |- _ => destruct H; discriminate end.
Qed.

(** ** What the order validation accepts (C2) *)

Lemma validate_order_unfold (params : Params.t) :
  validate_order params
  = match given (Params.token_id params) with
    | None => inl "token_id is required"
    | Some tokenId =>
        match given (Params.side params) with
        | None => inl "side is required (BUY or SELL)"
        | Some side =>
            if size_refused params then inl "size must be at least 5"
            else if price_refused params
                 then inl "price must be between 0 and 1 (exclusive)"
                 else inr (tokenId, side)
        end
    end.
Proof. reflexivity. Qed.

Lemma size_refused_spec (params : Params.t) :
  size_refused params = false <-> at_least 5 (parseFloat_param (Params.size params)).
Proof. apply size_check_spec. Qed.

Lemma price_refused_spec (params : Params.t) :
  price_refused params = false
  <-> strictly_between 0 1 (parseFloat_param (Params.price params)).
Proof. apply price_check_spec. Qed.

Lemma accepted_iff (params : Params.t) :
  accepted params <->
  given (Params.token_id params) <> None
  /\ given (Params.side params) <> None
  /\ at_least 5 (parseFloat_param (Params.size params))
  /\ strictly_between 0 1 (parseFloat_param (Params.price params)).
Proof.
  unfold accepted. rewrite validate_order_unfold.
  rewrite <- size_refused_spec, <- price_refused_spec.
  destruct (given (Params.token_id params)) as [tokenId | ];
    destruct (given (Params.side params)) as [side | ];
    destruct (size_refused params); destruct (price_refused params);
    split;
    try (intros (t & s & H); discriminate H);
    try (intros (H1 & H2 & H3 & H4); congruence).
  - intros _. repeat split; discriminate.
  - intros _. eauto.
Qed.

(** C2 (as the code has it): with a token id and a side given, a request
    is accepted exactly when [parseFloat] reads its size as [+Infinity] or
    as a finite number that is at least 5, and its price as a finite
    number strictly between 0 and 1; a size that fails is answered with
    ["size must be at least 5"], a price that fails with ["price must be
    between 0 and 1 (exclusive)"].  So 4.99 is refused and 5 accepted as
    a size, 0 and 1 are refused and 0.50 accepted as a price. *)
Theorem order_validation_accepts_exactly (params : Params.t) :
  (accepted params <->
     given (Params.token_id params) <> None
     /\ given (Params.side params) <> None
     /\ at_least 5 (parseFloat_param (Params.size params))
     /\ strictly_between 0 1 (parseFloat_param (Params.price params)))
  /\ (given (Params.token_id params) <> None ->
      given (Params.side params) <> None ->
      ~ at_least 5 (parseFloat_param (Params.size params)) ->
      validate_order params = inl "size must be at least 5")
  /\ (given (Params.token_id params) <> None ->
      given (Params.side params) <> None ->
      at_least 5 (parseFloat_param (Params.size params)) ->
      ~ strictly_between 0 1 (parseFloat_param (Params.price params)) ->
      validate_order params = inl "price must be between 0 and 1 (exclusive)")
  /\ validate_order (Sample.order_params (Some "tok") (Some "BUY") (Some "4.99") (Some "0.50"))
     = inl "size must be at least 5"
  /\ validate_order (Sample.order_params (Some "tok") (Some "BUY") (Some "5") (Some "0.50"))
     = inr ("tok", "BUY")
  /\ validate_order (Sample.order_params (Some "tok") (Some "BUY") (Some "5") (Some "0"))
     = inl "price must be between 0 and 1 (exclusive)"
  /\ validate_order (Sample.order_params (Some "tok") (Some "BUY") (Some "5") (Some "1"))
     = inl "price must be between 0 and 1 (exclusive)".
Proof.
  split; [ apply accepted_iff | ].
  split.
  { intros Ht Hs Hsize. rewrite validate_order_unfold.
    rewrite <- size_refused_spec in Hsize.
    destruct (given (Params.token_id params)); [ | congruence ].
    destruct (given (Params.side params)); [ | congruence ].
    destruct (size_refused params); [ reflexivity | congruence ]. }
  split.
  { intros Ht Hs Hsize Hprice. rewrite validate_order_unfold.
    rewrite <- size_refused_spec in Hsize. rewrite <- price_refused_spec in Hprice.
    destruct (given (Params.token_id params)); [ | congruence ].
    destruct (given (Params.side params)); [ | congruence ].
    rewrite Hsize.
    destruct (price_refused params); [ reflexivity | congruence ]. }
  repeat split; vm_compute; reflexivity.
Qed.

Lemma order_validation_witness :
  validate_order (Sample.order_params (Some "tok") (Some "SELL") (Some "abc") (Some "0.75"))
  = inl "size must be at least 5".
Proof.
  apply (proj1 (proj2 (order_validation_accepts_exactly
           (Sample.order_params (Some "tok") (Some "SELL") (Some "abc") (Some "0.75"))))).
  - discriminate.
  - discriminate.
  - vm_compute. tauto.
Defined.

(** C2, counterexample: a size that reads as [Infinity] is accepted,
    although it is no finite number. *)
Lemma infinite_size_is_accepted :
  accepted (Sample.order_params (Some "tok") (Some "BUY") (Some "Infinity") (Some "0.50"))
  /\ ~ spec_size_rule (parseFloat_param (Some "Infinity")).
Proof.
  split.
  - exists "tok", "BUY". vm_compute. reflexivity.
  - intros [H _]. discriminate H.
Qed.

(** ** Read-only gating at registration (C3) *)

Lemma register_tools_taken (ctx : PluginContext) (flag : bool) (tools : list Tool) :
  forall r, In r (fst (register_tools ctx flag tools)) ->
  exists tool, In tool tools /\ skipped flag tool = false /\ r = wrap tool.
Proof.
  induction tools as [ | tool rest IH ]; intros r Hin; cbn in Hin.
  - contradiction.
  - destruct (skipped flag tool) eqn:Hs.
    + destruct (IH r Hin) as (t & Ht & Hk & Hr). exists t. cbn. auto.
    + destruct (registerTool ctx (wrap tool)) as [e | u].
      * contradiction.
      * destruct (register_tools ctx flag rest) as [taken e] eqn:Hrest.
        cbn in Hin, IH. destruct Hin as [Heq | Hin].
        -- exists tool. cbn. auto.
        -- destruct (IH r Hin) as (t & Ht & Hk & Hr). exists t. cbn. auto.
Qed.

Lemma register_tools_accepting (ctx : PluginContext) (flag : bool) (tools : list Tool) :
  (forall r, registerTool ctx r = inr tt) ->
  register_tools ctx flag tools
  = (map wrap (filter (fun tool => negb (skipped flag tool)) tools), None).
Proof.
  intros Hhost. induction tools as [ | tool rest IH ]; cbn.
  - reflexivity.
  - destruct (skipped flag tool); cbn.
    + exact IH.
    + rewrite Hhost, IH. reflexivity.
Qed.

(** C3: when the configuration [createConfig] returns is read-only,
    [activate] never hands place-order or cancel-order to the host; and on
    a host that takes every tool it registers exactly the six read tools,
    in order, each behind the same wrapper as without the flag -- the
    flag is read in the registration loop and nowhere in a registered
    [execute]. *)
Theorem readonly_registers_only_read_tools
  (JSON_parse : string -> option value) (toStr : number -> string)
  (parseInt10 : string -> number) (process_env : string -> option string)
  (Config : Type) (config_readonly : Config -> bool)
  (createConfig : ConfigInput.t -> thrown + Config)
  (ClobClientWrapper : Config -> thrown + Env)
  (ctx : PluginContext) (privateKey : string) (config : Config) (client : Env) :
  given (first_given (PluginConfig.privateKey (plugin_config ctx))
           (process_env "POLYMARKET_PRIVATE_KEY")) = Some privateKey ->
  createConfig (config_input parseInt10 process_env (plugin_config ctx) privateKey)
  = inr config ->
  ClobClientWrapper config = inr client ->
  config_readonly config = true ->
  let activation :=
    activate JSON_parse toStr parseInt10 process_env Config config_readonly
      createConfig ClobClientWrapper ctx in
  (forall r, In r (registered activation) -> write_tool (registered_name r) = false)
  /\ ((forall r, registerTool ctx r = inr tt) ->
      registered activation
      = map wrap (filter (fun tool => negb (write_tool (name tool)))
                    (createPolymarketTools JSON_parse toStr client))
      /\ map registered_name (registered activation)
         = [ "polymarket_get_markets"; "polymarket_get_market";
             "polymarket_get_orderbook"; "polymarket_get_balance";
             "polymarket_get_positions"; "polymarket_get_trades" ]
      /\ logged activation = []).
Proof.
  intros Hkey Hconfig Hclient Hflag activation. subst activation.
  unfold activate. rewrite Hkey, Hconfig, Hclient, Hflag. split.
  - intros r Hin.
    assert (Hfst : In r (fst (register_tools ctx true
                                (createPolymarketTools JSON_parse toStr client)))).
    { destruct (register_tools ctx true (createPolymarketTools JSON_parse toStr client))
        as [taken [e | ]]; exact Hin. }
    destruct (register_tools_taken _ _ _ _ Hfst) as (tool & Htool & Hskip & ->).
    exact Hskip.
  - intros Hhost. rewrite (register_tools_accepting _ _ _ Hhost). cbn.
    repeat split; reflexivity.
Qed.

Lemma readonly_registration_witness :
  map registered_name (registered (Sample.activation true))
  = [ "polymarket_get_markets"; "polymarket_get_market";
      "polymarket_get_orderbook"; "polymarket_get_balance";
      "polymarket_get_positions"; "polymarket_get_trades" ].
Proof.
  refine (proj1 (proj2 (proj2 (readonly_registers_only_read_tools
    Json.parse Sample.toString parseFloat Sample.no_env bool (fun b => b)
    Sample.createConfig (fun _ => inr Sample.client) (Sample.host true)
    "0xkey" true Sample.client _ _ _ _) _))); intros; reflexivity.
Defined.

(** ** A missing market and a failed fetch (C4) *)

(** C4 (as the code has it): when the single-market fetch answers with a
    status that is not OK, get-market returns (it does not throw) an error
    envelope: with the message ["Market not found: <id>"] on a 404, and
    with ["Failed to fetch market: <status text>"] on any other status.
    Both carry the error flag; the message tells them apart. *)
Theorem missing_market_is_told_apart_by_message
  (JSON_parse : string -> option value) (client : Env) (id : string)
  (params : Params.t) (conditionId baseUrl : string)
  (response : Response (option GammaMarket.t)) :
  initialize client = inr tt ->
  given (Params.condition_id params) = Some conditionId ->
  getGammaApiUrl client = inr baseUrl ->
  fetch_market client
    {| base := baseUrl; path := "/markets/" ++ conditionId; query := [] |}
  = inr response ->
  ok response = false ->
  let run := polymarket_get_market JSON_parse client id params in
  (status response = 404 ->
   result run = Returned (errorResult ("Market not found: " ++ conditionId)))
  /\ (status response <> 404 ->
      result run
      = Returned (errorResult ("Failed to fetch market: " ++ statusText response)))
  /\ errorResult ("Market not found: " ++ conditionId)
     <> errorResult ("Failed to fetch market: " ++ statusText response)
  /\ isError (errorResult ("Market not found: " ++ conditionId)) = true.
Proof.
  intros Hinit Hid Hbase Hfetch Hok run. subst run.
  unfold polymarket_get_market, fetchGammaMarket.
  rewrite Hinit, Hid, Hbase. cbn in Hfetch |- *. rewrite Hfetch. cbn.
  rewrite Hok. cbn.
  repeat split.
  - intros H404. rewrite H404. reflexivity.
  - intros Hother. apply Z.eqb_neq in Hother. rewrite Hother. reflexivity.
  - cbn. discriminate.
Qed.

Lemma missing_market_witness :
  result (polymarket_get_market Json.parse Sample.client "call-1"
            (Sample.market_params (Some "0xabc")))
  = Returned (errorResult "Market not found: 0xabc").
Proof.
  refine (proj1 (missing_market_is_told_apart_by_message Json.parse Sample.client
    "call-1" (Sample.market_params (Some "0xabc")) "0xabc"
    "https://gamma-api.polymarket.com" (Sample.response 404 "Not Found" None)
    _ _ _ _ _) _); reflexivity.
Defined.

(** C4, counterexample: on a 404 the result carries the error flag. *)
Lemma missing_market_is_flagged_as_error :
  fetch_market Sample.client
    {| base := "https://gamma-api.polymarket.com"; path := "/markets/0xabc"; query := [] |}
  = inr (Sample.response 404 "Not Found" None)
  /\ ~ normal_result (polymarket_get_market Json.parse Sample.client "call-1"
                        (Sample.market_params (Some "0xabc"))).
Proof.
  split; [ reflexivity | ].
  intros (r & Hr & Hflag). vm_compute in Hr. injection Hr as <-. discriminate.
Qed.

(** ** The market listing: filter and truncation (C5) *)

Lemma value_of_nonneg (m e : Z) : (0 <= value_of m e)%Q -> 0 <= m.
Proof.
  unfold value_of. intros H.
  assert (H' : (0 * 2 ^ e <= inject_Z m * 2 ^ e)%Q).
  { rewrite Qmult_0_l. exact H. }
  apply Qmult_le_r in H'; [ | apply two_power_positive ].
  change 0%Q with (inject_Z 0) in H'. rewrite <- Zle_Qle in H'. exact H'.
Qed.

(** Truncating a non-negative double gives an integer that is not above it. *)
Lemma truncation_below (m e : Z) :
  0 <= m ->
  (inject_Z (Z.quot (m * 2 ^ Z.max 0 e) (2 ^ Z.max 0 (- e))) <= value_of m e)%Q.
Proof.
  intros Hm.
  assert (Hpow : forall k, 0 < 2 ^ Z.max 0 k) by (intros; apply Z.pow_pos_nonneg; lia).
  rewrite Z.quot_div_nonneg by (auto; specialize (Hpow e); nia).
  destruct (Z.le_gt_cases 0 e) as [He | He].
  - rewrite (Z.max_r 0 e), (Z.max_l 0 (- e)) by lia.
    rewrite Z.pow_0_r, Z.div_1_r.
    rewrite (value_of_shift m e 0) by lia.
    rewrite Z.sub_0_r. change (2 ^ 0)%Q with 1%Q. rewrite Qmult_1_r. apply Qle_refl.
  - rewrite (Z.max_l 0 e), (Z.max_r 0 (- e)) by lia.
    rewrite Z.pow_0_r, Z.mul_1_r.
    apply (Qmult_le_r _ _ (2 ^ (- e))); [ apply two_power_positive | ].
    unfold value_of.
    rewrite <- Qmult_assoc, <- Qpower_plus by discriminate.
    replace (e + - e) with 0 by lia. change (2 ^ 0)%Q with 1%Q. rewrite Qmult_1_r.
    change 2%Q with (inject_Z 2).
    rewrite <- Zpower_Qpower by lia.
    rewrite <- inject_Z_mult. rewrite <- Zle_Qle.
    rewrite Z.mul_comm. apply Z.mul_div_le. apply Z.pow_pos_nonneg; lia.
Qed.

Lemma slice0_In {A : Type} (xs : list A) (end_ : number) (x : A) :
  In x (slice0 xs end_) -> In x xs.
Proof.
  unfold slice0. intros H.
  rewrite <- (firstn_skipn (Z.to_nat (Z.max
    match ToIntegerOrInfinity end_ with
    | NegInfinity => 0
    | Integer k =>
        if k <? 0 then Z.max (Z.of_nat (List.length xs) + k) 0
        else Z.min k (Z.of_nat (List.length xs))
    | PosInfinity => Z.of_nat (List.length xs)
    end 0)) xs).
  apply in_or_app. now left.
Qed.

(** [slice(0, end)] returns no more than [end] items when [end] is a
    non-negative number. *)
Lemma slice0_length {A : Type} (xs : list A) (m e : Z) :
  (0 <= value_of m e)%Q ->
  (inject_Z (Z.of_nat (List.length (slice0 xs (Finite m e)))) <= value_of m e)%Q.
Proof.
  intros Hpos. apply value_of_nonneg in Hpos.
  eapply Qle_trans; [ | apply (truncation_below m e Hpos) ].
  rewrite <- Zle_Qle. unfold slice0. cbn [ToIntegerOrInfinity].
  set (k := Z.quot (m * 2 ^ Z.max 0 e) (2 ^ Z.max 0 (- e))).
  assert (Hk : 0 <= k).
  { subst k. apply Z.quot_pos; [ | apply Z.pow_pos_nonneg; lia ].
    apply Z.mul_nonneg_nonneg; [ exact Hpos | apply Z.pow_nonneg; lia ]. }
  destruct (k <? 0) eqn:Hneg; [ apply Z.ltb_lt in Hneg; lia | ].
  pose proof (firstn_le_length
                (Z.to_nat (Z.max (Z.min k (Z.of_nat (List.length xs))) 0)) xs).
  lia.
Qed.

(** X1.  What holds of every listing (the part of C5 the code keeps): the
    markets [fetchGammaMarkets] returns are not closed and have a truthy
    [clobTokenIds], and there are no more of them than a non-negative
    [limit]. *)
Lemma listed_markets_are_open_and_bounded
  (toStr : number -> string) (client : Env) (limit offset : number)
  (search : option string) (markets : list GammaMarket.t) :
  result (fetchGammaMarkets toStr client limit offset search) = Returned markets ->
  (forall m, In m markets ->
     GammaMarket.closed m = false /\ truthy (GammaMarket.clobTokenIds m) = true)
  /\ (forall lm le, limit = Finite lm le -> (0 <= value_of lm le)%Q ->
      (inject_Z (Z.of_nat (List.length markets)) <= value_of lm le)%Q).
Proof.
  unfold fetchGammaMarkets, result.
  destruct (getGammaApiUrl client) as [e | baseUrl]; cbn; [ discriminate | ].
  match goal with
  | |- context [fetch_markets client ?u] =>
      destruct (fetch_markets client u) as [e | response]; cbn; [ discriminate | ]
  end.
  destruct (ok response); cbn; [ | discriminate ].
  destruct (json response) as [e | [data | ]]; cbn; try discriminate.
  - intros H. injection H as <-. split.
    + intros m Hin. apply slice0_In, filter_In in Hin.
      destruct Hin as [_ Hkeep]. unfold keep_market in Hkeep.
      apply andb_true_iff in Hkeep. destruct Hkeep as [Hc Ht].
      apply negb_true_iff in Hc. auto.
    + intros lm le -> Hpos. now apply slice0_length.
  - intros H. injection H as <-. split.
    + intros m [].
    + intros lm le _ Hpos. exact Hpos.
Qed.

Lemma listed_markets_witness :
  (inject_Z (Z.of_nat (List.length (firstn 1 mixed_page))) <= value_of 5 0)%Q.
Proof.
  refine (proj2 (listed_markets_are_open_and_bounded Sample.toString
    (Sample.with_fetch_markets Sample.client
       (fun _ => inr (Sample.response 200 "OK" (Some mixed_page))))
    (of_Z 5) (of_Z 0) None (firstn 1 mixed_page) _) 5 0 _ _).
  - vm_compute. reflexivity.
  - reflexivity.
  - discriminate.
Defined.

(** C5, the code at the failing input: a market whose [clobTokenIds] is
    the empty array, or the text [[]], passes the filter, so the listing
    returns entries whose token id list is empty, and get-markets shows
    them with the empty string as token id. *)
Lemma listing_keeps_a_market_without_token_ids :
  let client :=
    Sample.with_fetch_markets Sample.client
      (fun _ => inr (Sample.response 200 "OK" (Some page_without_token_ids))) in
  map keep_market page_without_token_ids = [true; true]
  /\ result (fetchGammaMarkets Sample.toString client (of_Z 5) (of_Z 0) None)
     = Returned page_without_token_ids
  /\ map (token_ids Json.parse) page_without_token_ids = [VArray []; VArray []]
  /\ exists first second,
       result (polymarket_get_markets Json.parse Sample.toString client "call-1"
                 (Sample.list_params (Some (of_Z 5))))
       = Returned (toolResult (MarketListData [first; second]) false)
       /\ map Token.token_id (Market.tokens first) = [VString ""; VString ""]
       /\ map Token.token_id (Market.tokens second) = [VString ""; VString ""].
Proof.
  cbv zeta. split; [ reflexivity | ].
  split; [ vm_compute; reflexivity | ].
  split; [ vm_compute; reflexivity | ].
  eexists. eexists. split; [ vm_compute; reflexivity | ].
  split; reflexivity.
Qed.

(** ** The market normaliser on lists (C6, C9, C10) *)

Lemma omap_total {A B : Type} (f : A -> outcome B) (g : A -> B) (xs : list A) :
  (forall x, f x = Returned (g x)) -> omap f xs = Returned (map g xs).
Proof.
  intros Hf. induction xs as [ | x rest IH ]; cbn.
  - reflexivity.
  - rewrite Hf, IH. reflexivity.
Qed.

(** On three arrays [formatMarket] returns, with one token per outcome. *)
Lemma formatMarket_on_arrays
  (JSON_parse : string -> option value) (market : GammaMarket.t)
  (os ps ts : list value) :
  parseJsonField JSON_parse (GammaMarket.outcomes market) yes_no = VArray os ->
  parseJsonField JSON_parse (GammaMarket.outcomePrices market) (VArray []) = VArray ps ->
  parseJsonField JSON_parse (GammaMarket.clobTokenIds market) (VArray []) = VArray ts ->
  formatMarket JSON_parse market
  = Returned
      {| Market.condition_id := GammaMarket.conditionId market;
         Market.question := GammaMarket.question market;
         Market.tokens := map (token_of os ps ts) (seq 0 (List.length os));
         Market.volume := string_or (Some (GammaMarket.volume market)) "0";
         Market.end_date := string_or (Some (GammaMarket.endDate market)) "";
         Market.active := GammaMarket.active market;
         Market.closed := GammaMarket.closed market |}.
Proof.
  intros Ho Hp Ht. unfold formatMarket. fold yes_no. rewrite Ho, Hp, Ht.
  cbn [get_length].
  rewrite (omap_total _ (token_of os ps ts)); [ reflexivity | ].
  intros i. reflexivity.
Qed.





(** ** Positions are first-seen-wins (C7) *)

(** C7: when the client returns, get-positions answers an empty set of
    open orders with exactly [{positions: [], open_orders: []}]; for two
    open orders on one token it returns one position, built from the
    first order (its size and price), and both orders in [open_orders]. *)
Theorem positions_are_first_seen_wins (client : Env) (id : string) (params : Params.t) :
  initialize client = inr tt ->
  getClient client = inr tt ->
  (getOpenOrders client = inr (Some []) ->
   result (polymarket_get_positions client id params)
   = Returned (toolResult (PositionsData [] []) false))
  /\ (forall first second,
        RawOpenOrder.asset_id first = RawOpenOrder.asset_id second ->
        getOpenOrders client = inr (Some [first; second]) ->
        result (polymarket_get_positions client id params)
        = Returned (toolResult
                      (PositionsData [position_of first]
                         [format_order first; format_order second])
                      false)
        /\ Position.size (position_of first) = RawOpenOrder.original_size first
        /\ Position.avg_price (position_of first) = RawOpenOrder.price first).
Proof.
  intros Hinit Hclient. unfold polymarket_get_positions. rewrite Hinit, Hclient.
  split.
  - intros Horders. rewrite Horders. reflexivity.
  - intros first second Hsame Horders. rewrite Horders.
    repeat split. cbn. unfold add_position, map_has. cbn.
    rewrite Hsame, String.eqb_refl. reflexivity.
Qed.

Lemma positions_witness :
  result (polymarket_get_positions
            (Sample.with_getOpenOrders Sample.client
               (inr (Some [Sample.order "o1" "tok" "0.40" "10";
                           Sample.order "o2" "tok" "0.45" "20"])))
            "call-1" Params.empty)
  = Returned (toolResult
                (PositionsData
                   [position_of (Sample.order "o1" "tok" "0.40" "10")]
                   [format_order (Sample.order "o1" "tok" "0.40" "10");
                    format_order (Sample.order "o2" "tok" "0.45" "20")])
                false).
Proof.
  refine (proj1 (proj2 (positions_are_first_seen_wins
    (Sample.with_getOpenOrders Sample.client
       (inr (Some [Sample.order "o1" "tok" "0.40" "10";
                   Sample.order "o2" "tok" "0.45" "20"])))
    "call-1" Params.empty _ _) _ _ _ _)); reflexivity.
Defined.

(** ** Failures of the collaborators (C8) *)

Lemma get_markets_surfaces
  (JSON_parse : string -> option value) (toStr : number -> string)
  (client : Env) (id : string) (params : Params.t) :
  surfaces_failures (polymarket_get_markets JSON_parse toStr client id params).
Proof.
  unfold polymarket_get_markets, fetchGammaMarkets, catch_all.
  step_call (initialize client) as started.
  step_call (getGammaApiUrl client) as baseUrl.
  match goal with
  | |- context [fetch_markets client ?u] => step_call (fetch_markets client u) as response
  end.
  destruct (ok response); cbn; [ | settle_failure ].
  step_call (json response) as body.
  destruct body as [data | ]; cbn.
  - destruct (omap (formatMarket JSON_parse) _); cbn; settle_failure.
  - settle_failure.
Qed.

Lemma get_market_surfaces
  (JSON_parse : string -> option value) (client : Env) (id : string) (params : Params.t) :
  surfaces_failures (polymarket_get_market JSON_parse client id params).
Proof.
  unfold polymarket_get_market, fetchGammaMarket, catch_all.
  step_call (initialize client) as started.
  destruct (given (Params.condition_id params)) as [conditionId | ]; cbn;
    [ | settle_failure ].
  step_call (getGammaApiUrl client) as baseUrl.
  match goal with
  | |- context [fetch_market client ?u] => step_call (fetch_market client u) as response
  end.
  destruct (ok response); cbn.
  - step_call (json response) as body.
    destruct body as [market | ]; cbn; [ | settle_failure ].
    destruct (formatMarket JSON_parse market); cbn; settle_failure.
  - destruct (status response =? 404); cbn; settle_failure.
Qed.

Lemma get_orderbook_surfaces (client : Env) (id : string) (params : Params.t) :
  surfaces_failures (polymarket_get_orderbook client id params).
Proof.
  unfold polymarket_get_orderbook, catch_all.
  step_call (initialize client) as started.
  destruct (given (Params.token_id params)) as [tokenId | ]; cbn; [ | settle_failure ].
  step_call (getClient client) as clobClient.
  step_call (getOrderBook client tokenId) as orderbook.
  settle_failure.
Qed.

Lemma get_balance_surfaces (client : Env) (id : string) (params : Params.t) :
  surfaces_failures (polymarket_get_balance client id params).
Proof.
  unfold polymarket_get_balance, catch_all.
  step_call (initialize client) as started.
  step_call (getClient client) as clobClient.
  step_call (getFunder client) as funder.
  step_call (getBalanceAllowance client) as balanceData.
  settle_failure.
Qed.

Lemma get_positions_surfaces (client : Env) (id : string) (params : Params.t) :
  surfaces_failures (polymarket_get_positions client id params).
Proof.
  unfold polymarket_get_positions, catch_all.
  step_call (initialize client) as started.
  step_call (getClient client) as clobClient.
  step_call (getOpenOrders client) as openOrders.
  destruct openOrders as [[ | first rest] | ]; cbn; settle_failure.
Qed.

Lemma get_trades_surfaces (client : Env) (id : string) (params : Params.t) :
  surfaces_failures (polymarket_get_trades client id params).
Proof.
  unfold polymarket_get_trades, catch_all.
  step_call (initialize client) as started.
  step_call (getClient client) as clobClient.
  step_call (getTrades client) as allTrades.
  settle_failure.
Qed.

Lemma place_order_surfaces
  (toStr : number -> string) (client : Env) (id : string) (params : Params.t) :
  surfaces_failures (polymarket_place_order toStr client id params).
Proof.
  unfold polymarket_place_order, market_info, catch_all.
  step_call (initialize client) as started.
  step_call (ensureWriteAccess client) as allowed.
  destruct (validate_order params) as [message | [tokenId side]]; cbn;
    [ settle_failure | ].
  step_call (getClient client) as clobClient.
  destruct (getMarket client tokenId) as [failure | info]; cbn.
  - step_call (createOrder client (order_args params tokenId side)) as signedOrder.
    step_call (postOrder client signedOrder) as response.
    settle_failure.
  - step_call (createOrder client (order_args params tokenId side)) as signedOrder.
    step_call (postOrder client signedOrder) as response.
    settle_failure.
Qed.

Lemma cancel_order_surfaces (client : Env) (id : string) (params : Params.t) :
  surfaces_failures (polymarket_cancel_order client id params).
Proof.
  unfold polymarket_cancel_order, catch_all.
  step_call (initialize client) as started.
  step_call (ensureWriteAccess client) as allowed.
  destruct (given (Params.order_id params)) as [orderId | ]; cbn; [ | settle_failure ].
  step_call (getClient client) as clobClient.
  step_call (cancelOrder client orderId) as response.
  settle_failure.
Qed.

(** C8: when the market-metadata fetch of place-order throws, the order
    is still created and posted, and the result echoes tick size 0.01
    and negative-risk [false]; and this is the only failure met on the
    way that is not surfaced: in each of the eight tools, any other
    collaborator call that throws ends the run with the error envelope
    of what it threw, and a listing or market fetch that answers with a
    status that is not OK ends it with an error envelope too. *)
Theorem metadata_failure_is_the_only_local_recovery
  (JSON_parse : string -> option value) (toStr : number -> string)
  (client : Env) (id : string) (params : Params.t) :
  (forall tokenId side failure signedOrder response,
     initialize client = inr tt ->
     ensureWriteAccess client = inr tt ->
     validate_order params = inr (tokenId, side) ->
     getClient client = inr tt ->
     getMarket client tokenId = inl failure ->
     createOrder client (order_args params tokenId side) = inr signedOrder ->
     postOrder client signedOrder = inr response ->
     polymarket_place_order toStr client id params
     = ([ (CallInitialize, None); (CallEnsureWriteAccess, None); (CallGetClient, None);
          (CallGetMarket tokenId, Some failure);
          (CallCreateOrder (order_args params tokenId side), None);
          (CallPostOrder signedOrder, None) ],
        Returned (toolResult
                    (OrderData (order_result toStr params tokenId side
                                  (of_decimal false 1 (-2)) false response))
                    false)))
  /\ (forall tool, In tool (createPolymarketTools JSON_parse toStr client) ->
      surfaces_failures (execute tool id params))
  /\ (forall response,
        initialize client = inr tt ->
        (exists baseUrl, getGammaApiUrl client = inr baseUrl) ->
        (forall url, fetch_markets client url = inr response) ->
        ok response = false ->
        result (polymarket_get_markets JSON_parse toStr client id params)
        = Returned (errorResult ("Failed to fetch markets: " ++ statusText response)))
  /\ (forall response conditionId,
        initialize client = inr tt ->
        given (Params.condition_id params) = Some conditionId ->
        (exists baseUrl, getGammaApiUrl client = inr baseUrl) ->
        (forall url, fetch_market client url = inr response) ->
        ok response = false ->
        exists message,
          result (polymarket_get_market JSON_parse client id params)
          = Returned (errorResult message)).
Proof.
  repeat split.
  - intros tokenId side failure signedOrder response
      Hinit Hwrite Hvalid Hclient Hmarket Hcreate Hpost.
    unfold polymarket_place_order, market_info.
    rewrite Hinit, Hwrite, Hvalid. cbn. rewrite Hclient, Hmarket. cbn.
    rewrite Hcreate. cbn. rewrite Hpost. reflexivity.
  - intros tool Hin. cbn in Hin.
    repeat (destruct Hin as [<- | Hin]); try contradiction; cbn [execute].
    + apply get_markets_surfaces.
    + apply get_market_surfaces.
    + apply get_orderbook_surfaces.
    + apply get_balance_surfaces.
    + apply get_positions_surfaces.
    + apply get_trades_surfaces.
    + apply place_order_surfaces.
    + apply cancel_order_surfaces.
  - intros response Hinit [baseUrl Hbase] Hfetch Hok.
    unfold polymarket_get_markets, fetchGammaMarkets.
    rewrite Hinit, Hbase. cbn. rewrite Hfetch. cbn. rewrite Hok. reflexivity.
  - intros response conditionId Hinit Hid [baseUrl Hbase] Hfetch Hok.
    unfold polymarket_get_market, fetchGammaMarket.
    rewrite Hinit, Hid, Hbase. cbn. rewrite Hfetch. cbn. rewrite Hok. cbn.
    destruct (status response =? 404); cbn; eexists; reflexivity.
Qed.

Lemma metadata_failure_witness :
  result (polymarket_place_order Sample.toString
            (Sample.with_getMarket Sample.client
               (fun _ => inl (ErrorObject "getMarket timed out")))
            "call-1"
            (Sample.order_params (Some "tok") (Some "SELL") (Some "10") (Some "0.75")))
  = Returned (toolResult
                (OrderData
                   {| OrderResult.order_id := "order-1";
                      OrderResult.status := "live";
                      OrderResult.message := None;
                      OrderResult.order_details :=
                        {| OrderDetails.token_id := "tok";
                           OrderDetails.side := "SELL";
                           OrderDetails.size := "5p1";
                           OrderDetails.price := "3p-2";
                           OrderDetails.tick_size := parseFloat "0.01";
                           OrderDetails.neg_risk := false |} |})
                false).
Proof.
  rewrite (proj1 (metadata_failure_is_the_only_local_recovery Json.parse Sample.toString
    (Sample.with_getMarket Sample.client
       (fun _ => inl (ErrorObject "getMarket timed out")))
    "call-1"
    (Sample.order_params (Some "tok") (Some "SELL") (Some "10") (Some "0.75")))
    "tok" "SELL" (ErrorObject "getMarket timed out") {| signed := "0xsigned" |}
    {| RawOrderResponse.orderID := Some "order-1";
       RawOrderResponse.status := Some "live";
       RawOrderResponse.errorMsg := None |});
    vm_compute; reflexivity.
Defined.

(** ** The two encodings of the list fields (C9) *)

(** C9: if the three texts are JSON encodings of three arrays (that is,
    [JSON.parse] reads each text as its array), then the normaliser gives
    the same result on the raw market that carries the texts as on the
    one that carries the arrays. *)
Theorem encodings_normalise_alike
  (JSON_parse : string -> option value) (market : GammaMarket.t)
  (tokenIdsText outcomesText pricesText : string) (ts os ps : list value) :
  JSON_parse tokenIdsText = Some (VArray ts) ->
  JSON_parse outcomesText = Some (VArray os) ->
  JSON_parse pricesText = Some (VArray ps) ->
  formatMarket JSON_parse
    (with_lists market (VString tokenIdsText) (VString outcomesText) (VString pricesText))
  = formatMarket JSON_parse (with_lists market (VArray ts) (VArray os) (VArray ps)).
Proof.
  intros Ht Ho Hp.
  rewrite (formatMarket_on_arrays JSON_parse
             (with_lists market (VArray ts) (VArray os) (VArray ps)) os ps ts)
    by reflexivity.
  rewrite (formatMarket_on_arrays JSON_parse
             (with_lists market (VString tokenIdsText) (VString outcomesText)
                (VString pricesText)) os ps ts).
  - reflexivity.
  - cbn. rewrite Ho. reflexivity.
  - cbn. rewrite Hp. reflexivity.
  - cbn. rewrite Ht. reflexivity.
Qed.

Lemma encodings_witness :
  formatMarket Json.parse
    (with_lists (Sample.market VUndefined VUndefined VUndefined false)
       (VString (Json.array_literal ["71"; "72"]))
       (VString (Json.array_literal ["Yes"; "No"]))
       (VString (Json.array_literal ["0.35"; "0.65"])))
  = formatMarket Json.parse
      (with_lists (Sample.market VUndefined VUndefined VUndefined false)
         (VArray [VString "71"; VString "72"])
         (VArray [VString "Yes"; VString "No"])
         (VArray [VString "0.35"; VString "0.65"])).
Proof.
  apply (encodings_normalise_alike Json.parse); vm_compute; reflexivity.
Defined.

(** ** The fallback for the outcomes (C10) *)





(** ** The reference parser reads back what it is given *)

Lemma length_append (a b : string) :
  String.length (a ++ b) = (String.length a + String.length b)%nat.
Proof. induction a as [ | c a IH ]; cbn; [ reflexivity | now rewrite IH ]. Qed.

Lemma read_string_escape (s rest : string) :
  Json.printable s = true ->
  Json.read_string (Json.escape s ++ String Json.quote rest) = Some (s, rest).
Proof.
  induction s as [ | c s IH ]; intros Hp.
  - reflexivity.
  - cbn [Json.printable] in Hp. apply andb_true_iff in Hp. destruct Hp as [Hc Hs].
    specialize (IH Hs). cbn [Json.escape].
    destruct (c =? Json.quote)%char eqn:Hq.
    + apply Ascii.eqb_eq in Hq. subst c. cbn. cbn in IH. rewrite IH. reflexivity.
    + destruct (c =? Json.backslash)%char eqn:Hb.
      * apply Ascii.eqb_eq in Hb. subst c. cbn. cbn in IH. rewrite IH. reflexivity.
      * cbn [orb append Json.read_string]. rewrite Hq, Hb.
        apply Nat.leb_le in Hc.
        destruct (nat_of_ascii c <? 32)%nat eqn:Hlt; [ apply Nat.ltb_lt in Hlt; lia | ].
        rewrite IH. reflexivity.
Qed.

Lemma append_assoc (a b c : string) : ((a ++ b) ++ c = a ++ (b ++ c))%string.
Proof. induction a as [ | x a IH ]; cbn; [ reflexivity | now rewrite IH ]. Qed.

Lemma read_value_string_literal (fuel : nat) (s rest : string) :
  (0 < fuel)%nat ->
  Json.printable s = true ->
  Json.read_value fuel (Json.string_literal s ++ rest) = Some (VString s, rest).
Proof.
  intros Hfuel Hp. destruct fuel as [ | fuel ]; [ lia | ].
  unfold Json.string_literal. cbn [append].
  rewrite append_assoc. cbn [append].
  cbn [Json.read_value Json.skip_ws].
  change (Json.is_ws Json.quote) with false. cbn iota.
  rewrite Ascii.eqb_refl, (read_string_escape s rest Hp). reflexivity.
Qed.

Lemma read_items_string_literals (items : list string) :
  forall (x : string) (acc : list value) (fuel : nat) (rest : string),
  forallb Json.printable (x :: items) = true ->
  (List.length items + 1 < fuel)%nat ->
  Json.read_items fuel
    (String.concat "," (map Json.string_literal (x :: items)) ++ String "]" rest) acc
  = Some (VArray (rev acc ++ map VString (x :: items)), rest).
Proof.
  induction items as [ | y items IH ]; intros x acc fuel rest Hp Hfuel;
    (destruct fuel as [ | fuel ]; [ lia | ]);
    cbn [forallb] in Hp; apply andb_true_iff in Hp; destruct Hp as [Hx Hrest].
  - cbn [map String.concat Json.read_items].
    rewrite (read_value_string_literal fuel x _) by (auto; lia). reflexivity.
  - change (String.concat "," (map Json.string_literal (x :: y :: items)))
      with (Json.string_literal x ++ ","
            ++ String.concat "," (map Json.string_literal (y :: items))).
    rewrite !append_assoc. cbn [Json.read_items].
    rewrite (read_value_string_literal fuel x _) by (auto; cbn in Hfuel; lia).
    cbn [append Json.skip_ws]. change (Json.is_ws ",") with false. cbn iota.
    rewrite (IH y (VString x :: acc) fuel rest Hrest) by (cbn in Hfuel; lia).
    cbn [rev map]. rewrite <- app_assoc. reflexivity.
Qed.

Lemma literals_length (items : list string) :
  (List.length items
   <= String.length (String.concat "," (map Json.string_literal items)))%nat.
Proof.
  induction items as [ | x [ | y items ] IH ].
  - cbn. lia.
  - cbn. lia.
  - change (String.concat "," (map Json.string_literal (x :: y :: items)))
      with (Json.string_literal x ++ ","
            ++ String.concat "," (map Json.string_literal (y :: items))).
    rewrite !length_append. cbn [List.length] in *. cbn [String.length]. lia.
Qed.

(** The reference parser reads the text of an array of strings back as
    that array. *)
Lemma parse_array_literal (items : list string) :
  forallb Json.printable items = true ->
  Json.parse (Json.array_literal items) = Some (VArray (map VString items)).
Proof.
  intros Hp. unfold Json.parse, Json.array_literal.
  pose proof (literals_length items) as Hlen.
  set (body := String.concat "," (map Json.string_literal items)) in *.
  assert (Hfuel : (List.length items + 2
                   < 2 * String.length ("[" ++ body ++ "]") + 2)%nat).
  { rewrite !length_append. cbn [String.length]. lia. }
  destruct (2 * String.length ("[" ++ body ++ "]") + 2)%nat as [ | fuel ]; [ lia | ].
  destruct items as [ | x items ].
  - reflexivity.
  - cbn [append Json.read_value Json.skip_ws].
    change (Json.is_ws "[") with false. cbn iota.
    change ("["%char =? Json.quote)%char with false.
    change ("["%char =? "[")%char with true. cbn iota.
    subst body.
    assert (Hhead : exists tail,
              String.concat "," (map Json.string_literal (x :: items)) ++ "]"
              = String Json.quote tail).
    { destruct items; cbn; eauto. }
    destruct Hhead as [tail Hhead]. rewrite Hhead. cbn [Json.skip_ws].
    change (Json.is_ws Json.quote) with false. cbn iota. rewrite <- Hhead.
    rewrite (read_items_string_literals items x [] fuel EmptyString Hp)
      by (cbn [List.length] in Hfuel; lia).
    reflexivity.
Qed.

(** X8.  With the reference parser, the texts of three arrays of strings
    normalise as the arrays themselves do. *)
Lemma array_texts_normalise_as_arrays
  (market : GammaMarket.t) (ts os ps : list string) :
  forallb Json.printable ts = true ->
  forallb Json.printable os = true ->
  forallb Json.printable ps = true ->
  formatMarket Json.parse
    (with_lists market (VString (Json.array_literal ts))
       (VString (Json.array_literal os)) (VString (Json.array_literal ps)))
  = formatMarket Json.parse
      (with_lists market (VArray (map VString ts)) (VArray (map VString os))
         (VArray (map VString ps))).
Proof.
  intros Ht Ho Hp.
  rewrite (formatMarket_on_arrays Json.parse
             (with_lists market (VArray (map VString ts)) (VArray (map VString os))
                (VArray (map VString ps)))
             (map VString os) (map VString ps) (map VString ts)) by reflexivity.
  rewrite (formatMarket_on_arrays Json.parse
             (with_lists market (VString (Json.array_literal ts))
                (VString (Json.array_literal os)) (VString (Json.array_literal ps)))
             (map VString os) (map VString ps) (map VString ts)).
  - reflexivity.
  - cbn [with_lists GammaMarket.outcomes parseJsonField].
    rewrite (parse_array_literal os Ho). reflexivity.
  - cbn [with_lists GammaMarket.outcomePrices parseJsonField].
    rewrite (parse_array_literal ps Hp). reflexivity.
  - cbn [with_lists GammaMarket.clobTokenIds parseJsonField].
    rewrite (parse_array_literal ts Ht). reflexivity.
Qed.

Lemma array_texts_witness :
  formatMarket Json.parse
    (with_lists (Sample.market VUndefined VUndefined VUndefined false)
       (VString (Json.array_literal ["71"; "72"]))
       (VString (Json.array_literal ["Up"; "Down"]))
       (VString (Json.array_literal ["0.35"])))
  = formatMarket Json.parse
      (with_lists (Sample.market VUndefined VUndefined VUndefined false)
         (VArray (map VString ["71"; "72"])) (VArray (map VString ["Up"; "Down"]))
         (VArray (map VString ["0.35"]))).
Proof.
  apply array_texts_normalise_as_arrays; reflexivity.
Defined.

(** ** Further properties of the tools *)

Lemma map_has_keys {V : Type} (m : list (string * V)) (k : string) :
  map_has m k = existsb (fun k' => (k' =? k)%string) (map fst m).
Proof.
  unfold map_has. induction m as [ | [k' v] m IH ]; cbn; [ reflexivity | now rewrite IH ].
Qed.

Lemma map_set_fresh {V : Type} (m : list (string * V)) (k : string) (v : V) :
  map_has m k = false -> map_set m k v = (m ++ [(k, v)])%list.
Proof.
  unfold map_has. induction m as [ | [k' v'] m IH ]; cbn; intros H.
  - reflexivity.
  - apply orb_false_iff in H. destruct H as [Hk Hm].
    rewrite Hk, (IH Hm). reflexivity.
Qed.

Lemma positions_of_fold (orders : list RawOpenOrder.t) :
  forall positionMap : list (string * Position.t),
  map_values (fold_left add_position orders positionMap)
  = (map_values positionMap
     ++ map position_of (first_orders (map fst positionMap) orders))%list.
Proof.
  unfold map_values.
  induction orders as [ | o rest IH ]; intros positionMap; cbn [fold_left first_orders].
  - cbn. now rewrite app_nil_r.
  - unfold add_position at 2. rewrite map_has_keys.
    destruct (existsb (fun k => (k =? RawOpenOrder.asset_id o)%string)
                (map fst positionMap)) eqn:Hseen.
    + apply IH.
    + rewrite map_set_fresh by (rewrite map_has_keys; exact Hseen).
      rewrite IH, !map_app. cbn [map fst snd]. rewrite <- app_assoc. reflexivity.
Qed.

(** X2.  First-seen-wins for any number of orders: get-positions returns one
    position per order that is the first on its token, in the order they
    came, and every order in [open_orders]. *)
Lemma positions_follow_first_orders
  (client : Env) (id : string) (params : Params.t) (orders : list RawOpenOrder.t) :
  initialize client = inr tt ->
  getClient client = inr tt ->
  getOpenOrders client = inr (Some orders) ->
  result (polymarket_get_positions client id params)
  = Returned (toolResult
                (PositionsData (map position_of (first_orders [] orders))
                   (map format_order orders))
                false).
Proof.
  intros Hinit Hclient Horders. unfold polymarket_get_positions.
  rewrite Hinit, Hclient, Horders. destruct orders as [ | o rest ].
  - reflexivity.
  - cbn [result bind call ret catch_all try_catch snd app].
    rewrite (positions_of_fold (o :: rest) []). reflexivity.
Qed.

Lemma positions_follow_first_orders_witness :
  result (polymarket_get_positions
            (Sample.with_getOpenOrders Sample.client
               (inr (Some [Sample.order "o1" "a" "0.40" "10";
                           Sample.order "o2" "b" "0.50" "5";
                           Sample.order "o3" "a" "0.45" "20"])))
            "call-1" Params.empty)
  = Returned (toolResult
                (PositionsData
                   [position_of (Sample.order "o1" "a" "0.40" "10");
                    position_of (Sample.order "o2" "b" "0.50" "5")]
                   [format_order (Sample.order "o1" "a" "0.40" "10");
                    format_order (Sample.order "o2" "b" "0.50" "5");
                    format_order (Sample.order "o3" "a" "0.45" "20")])
                false).
Proof.
  apply (positions_follow_first_orders
           (Sample.with_getOpenOrders Sample.client
              (inr (Some [Sample.order "o1" "a" "0.40" "10";
                          Sample.order "o2" "b" "0.50" "5";
                          Sample.order "o3" "a" "0.45" "20"])))
           "call-1" Params.empty
           [Sample.order "o1" "a" "0.40" "10";
            Sample.order "o2" "b" "0.50" "5";
            Sample.order "o3" "a" "0.45" "20"]); reflexivity.
Defined.

(** X3.  The check on [side] only refuses a missing or empty one: with a
    token id, a size and a price that pass, any side that is given
    passes the four checks.  A side that is not ["BUY"] is then handed
    to [createOrder] as [SELL], and once the order is created it is
    posted and reported without the error flag, with the side echoed as
    it was given. *)
Lemma any_other_side_is_sent_as_sell
  (toStr : number -> string) (client : Env) (id : string) (params : Params.t)
  (tokenId given_side : string) :
  given (Params.token_id params) = Some tokenId ->
  given (Params.side params) = Some given_side ->
  given_side <> "BUY" ->
  at_least 5 (parseFloat_param (Params.size params)) ->
  strictly_between 0 1 (parseFloat_param (Params.price params)) ->
  initialize client = inr tt ->
  ensureWriteAccess client = inr tt ->
  getClient client = inr tt ->
  let run := polymarket_place_order toStr client id params in
  validate_order params = inr (tokenId, given_side)
  /\ (exists args,
        In (CallCreateOrder args) (calls run)
        /\ tokenID args = tokenId
        /\ side args = SELL)
  /\ (forall signedOrder response,
        createOrder client (order_args params tokenId given_side) = inr signedOrder ->
        postOrder client signedOrder = inr response ->
        In (CallPostOrder signedOrder) (calls run)
        /\ exists details,
             result run = Returned (toolResult (OrderData details) false)
             /\ OrderDetails.side (OrderResult.order_details details) = given_side).
Proof.
  intros Htoken Hgiven Hside Hsize Hprice Hinit Hwrite Hclient run.
  assert (Hvalid : validate_order params = inr (tokenId, given_side)).
  { rewrite validate_order_unfold, Htoken, Hgiven.
    apply size_refused_spec in Hsize. apply price_refused_spec in Hprice.
    rewrite Hsize, Hprice. reflexivity. }
  assert (Hsell : side (order_args params tokenId given_side) = SELL).
  { unfold order_args. cbn [side].
    destruct (given_side =? "BUY")%string eqn:E; [ | reflexivity ].
    apply String.eqb_eq in E. contradiction. }
  split; [ exact Hvalid | ].
  subst run. unfold polymarket_place_order, market_info, catch_all, calls, trace, result.
  rewrite Hinit, Hwrite, Hvalid. quiet. rewrite Hclient. quiet.
  split.
  - exists (order_args params tokenId given_side).
    split; [ | split; [ reflexivity | exact Hsell ] ].
    destruct (getMarket client tokenId) as [failure | info]; quiet;
      destruct (createOrder client (order_args params tokenId given_side))
        as [e | signedOrder]; quiet;
      try (destruct (postOrder client signedOrder) as [e | response]; quiet);
      cbn [map fst In]; auto 10.
  - intros signedOrder response Hcreate Hpost.
    destruct (getMarket client tokenId) as [failure | info]; quiet;
      rewrite Hcreate; quiet; rewrite Hpost; quiet;
      (split; [ cbn [map fst In]; auto 10 | eexists; split; reflexivity ]).
Qed.

Lemma any_other_side_witness :
  exists args,
    In (CallCreateOrder args)
      (calls (polymarket_place_order Sample.toString Sample.client "call-1"
                (Sample.order_params (Some "tok") (Some "HOLD") (Some "10") (Some "0.5"))))
    /\ tokenID args = "tok"
    /\ side args = SELL.
Proof.
  refine (proj1 (proj2 (any_other_side_is_sent_as_sell Sample.toString Sample.client
            "call-1"
            (Sample.order_params (Some "tok") (Some "HOLD") (Some "10") (Some "0.5"))
            "tok" "HOLD" eq_refl eq_refl _ _ _ eq_refl eq_refl eq_refl))).
  - discriminate.
  - vm_compute. discriminate.
  - vm_compute. split; reflexivity.
Defined.

(** X4.  Cancel-order reports ["cancelled"] with the raw response only when
    [cancelOrder] returns; when it throws, the result is the error
    envelope of what it threw. *)
Lemma cancel_reports_what_happened
  (client : Env) (id : string) (params : Params.t) (orderId : string) :
  initialize client = inr tt ->
  ensureWriteAccess client = inr tt ->
  given (Params.order_id params) = Some orderId ->
  getClient client = inr tt ->
  (forall response, cancelOrder client orderId = inr response ->
     result (polymarket_cancel_order client id params)
     = Returned (toolResult (CancelData orderId "cancelled" response) false))
  /\ (forall e, cancelOrder client orderId = inl e ->
      result (polymarket_cancel_order client id params)
      = Returned (errorResult (error_message e))).
Proof.
  intros Hinit Hwrite Hid Hclient. unfold polymarket_cancel_order.
  rewrite Hinit, Hwrite, Hid. cbn. rewrite Hclient. cbn.
  split; intros x Hx; rewrite Hx; reflexivity.
Qed.

Lemma cancel_witness :
  result (polymarket_cancel_order Sample.client "call-1"
            (Sample.cancel_params (Some "order-1")))
  = Returned (toolResult (CancelData "order-1" "cancelled" VNull) false).
Proof.
  apply (proj1 (cancel_reports_what_happened Sample.client "call-1"
                  (Sample.cancel_params (Some "order-1")) "order-1"
                  eq_refl eq_refl eq_refl eq_refl)).
  reflexivity.
Defined.

(** X5.  Missing sides of an order book read as empty, and a missing balance
    or allowance as ["0"]. *)
Lemma missing_fields_take_their_defaults
  (client : Env) (id : string) (params : Params.t) :
  initialize client = inr tt ->
  getClient client = inr tt ->
  (forall tokenId,
     given (Params.token_id params) = Some tokenId ->
     getOrderBook client tokenId
     = inr {| RawOrderbook.bids := None; RawOrderbook.asks := None |} ->
     result (polymarket_get_orderbook client id params)
     = Returned (toolResult (OrderbookData tokenId [] []) false))
  /\ (forall funder,
        getFunder client = inr funder ->
        getBalanceAllowance client
        = inr {| RawBalanceAllowance.balance := None;
                 RawBalanceAllowance.allowance := None |} ->
        result (polymarket_get_balance client id params)
        = Returned (toolResult (BalanceData funder "0" "0") false)).
Proof.
  intros Hinit Hclient. split.
  - intros tokenId Hid Hbook. unfold polymarket_get_orderbook.
    rewrite Hinit, Hid. cbn. rewrite Hclient. cbn. rewrite Hbook. reflexivity.
  - intros funder Hfunder Hbalance. unfold polymarket_get_balance.
    rewrite Hinit, Hclient. cbn. rewrite Hfunder. cbn. rewrite Hbalance. reflexivity.
Qed.

Lemma missing_fields_witness :
  result (polymarket_get_balance Sample.client "call-1" Params.empty)
  = Returned (toolResult (BalanceData "0xfunder" "0" "0") false).
Proof.
  apply (proj2 (missing_fields_take_their_defaults Sample.client "call-1" Params.empty
                  eq_refl eq_refl) "0xfunder"); reflexivity.
Defined.

(** X6.  [parseJsonField] hands on whatever a text parses to: a price text
    that parses to [null] makes [formatMarket] throw at the first token. *)
Lemma null_price_text_makes_formatMarket_throw
  (JSON_parse : string -> option value) (market : GammaMarket.t)
  (text : string) (o : value) (os ts : list value) :
  parseJsonField JSON_parse (GammaMarket.outcomes market)
    (VArray [VString "Yes"; VString "No"]) = VArray (o :: os) ->
  parseJsonField JSON_parse (GammaMarket.clobTokenIds market) (VArray []) = VArray ts ->
  GammaMarket.outcomePrices market = VString text ->
  JSON_parse text = Some VNull ->
  formatMarket JSON_parse market = Threw (TypeError "null" "0").
Proof.
  intros Ho Ht Hp Hnull. unfold formatMarket.
  rewrite Ho, Ht, Hp. cbn [parseJsonField]. rewrite Hnull. reflexivity.
Qed.

Lemma null_price_text_witness :
  formatMarket Json.parse (Sample.market VUndefined VUndefined (VString "null") false)
  = Threw (TypeError "null" "0").
Proof.
  apply (null_price_text_makes_formatMarket_throw Json.parse
           (Sample.market VUndefined VUndefined (VString "null") false)
           "null" (VString "Yes") [VString "No"] []); reflexivity.
Defined.

Lemma firstn_own_length {A : Type} (k : nat) (xs : list A) :
  firstn (List.length (firstn k xs)) xs = firstn k xs.
Proof.
  revert k. induction xs as [ | x xs IH ]; intros [ | k ]; cbn; try reflexivity.
  now rewrite IH.
Qed.

Lemma format_trade_timestamp (t : RawTrade.t) :
  Trade.timestamp (format_trade t) = timestamp_rule t.
Proof.
  unfold format_trade, timestamp_rule, given, string_or. cbn [Trade.timestamp].
  destruct (RawTrade.timestamp t) as [ts | ];
    [ destruct (ts =? "")%string | ];
    try reflexivity;
    destruct (RawTrade.match_time t) as [mt | ]; try reflexivity;
    destruct (mt =? "")%string eqn:E; try reflexivity;
    apply String.eqb_eq in E; now subst.
Qed.

(** X7.  Get-trades returns a prefix of the trades the client returned,
    no longer than a non-negative [limit]: the first [k] of them, in
    their order.  Each comes back with its id, token, side, price, size
    and status as they are, and as timestamp its [timestamp], else its
    [match_time], else the empty string. *)
Lemma trades_are_truncated_to_the_limit
  (client : Env) (id : string) (params : Params.t)
  (allTrades : list RawTrade.t) (lm le : Z) :
  initialize client = inr tt ->
  getClient client = inr tt ->
  getTrades client = inr (Some allTrades) ->
  number_or (Params.limit params) (of_Z 20) = Finite lm le ->
  (0 <= value_of lm le)%Q ->
  exists (k : nat) (formatted : list Trade.t),
    result (polymarket_get_trades client id params)
    = Returned (toolResult (TradeListData formatted) false)
    /\ (k <= List.length allTrades)%nat
    /\ (inject_Z (Z.of_nat k) <= value_of lm le)%Q
    /\ List.length formatted = k
    /\ Forall2 (fun (t : RawTrade.t) (f : Trade.t) =>
                  Trade.id f = RawTrade.id t
                  /\ Trade.token_id f = RawTrade.asset_id t
                  /\ Trade.side f = RawTrade.side t
                  /\ Trade.price f = RawTrade.price t
                  /\ Trade.size f = RawTrade.size t
                  /\ Trade.status f = RawTrade.status t
                  /\ Trade.timestamp f = timestamp_rule t)
         (firstn k allTrades) formatted.
Proof.
  intros Hinit Hclient Htrades Hlimit Hpos.
  pose proof (slice0_length allTrades lm le Hpos) as Hlen.
  assert (Hprefix : slice0 allTrades (Finite lm le)
                    = firstn (List.length (slice0 allTrades (Finite lm le))) allTrades).
  { unfold slice0. symmetry. apply firstn_own_length. }
  set (trades := slice0 allTrades (Finite lm le)) in *.
  exists (List.length trades), (map format_trade trades).
  split; [ | split; [ | split; [ | split ] ] ].
  - unfold polymarket_get_trades. rewrite Hinit, Hclient, Htrades, Hlimit. reflexivity.
  - rewrite Hprefix. rewrite length_firstn. lia.
  - exact Hlen.
  - apply length_map.
  - rewrite <- Hprefix. clear.
    induction trades as [ | t trades IH ]; cbn [map]; constructor; [ | exact IH ].
    repeat split; try reflexivity. apply format_trade_timestamp.
Qed.

Lemma trades_witness :
  exists (k : nat) (formatted : list Trade.t),
    result (polymarket_get_trades
              (Sample.with_getTrades Sample.client
                 (inr (Some [Sample.trade "t1" (Some "1700000000") None;
                             Sample.trade "t2" None (Some "1700000001");
                             Sample.trade "t3" None None])))
              "call-1" (Sample.list_params (Some (of_Z 2))))
    = Returned (toolResult (TradeListData formatted) false)
    /\ (inject_Z (Z.of_nat k) <= value_of 1 1)%Q
    /\ List.length formatted = k.
Proof.
  destruct (trades_are_truncated_to_the_limit
              (Sample.with_getTrades Sample.client
                 (inr (Some [Sample.trade "t1" (Some "1700000000") None;
                             Sample.trade "t2" None (Some "1700000001");
                             Sample.trade "t3" None None])))
              "call-1" (Sample.list_params (Some (of_Z 2)))
              [Sample.trade "t1" (Some "1700000000") None;
               Sample.trade "t2" None (Some "1700000001");
               Sample.trade "t3" None None] 1 1
              eq_refl eq_refl eq_refl eq_refl)
    as (k & formatted & Hrun & _ & Hbound & Hlen & _).
  - discriminate.
  - exists k, formatted. split; [ exact Hrun | split; [ exact Hbound | exact Hlen ] ].
Defined.

(** ** Whole numbers among the doubles *)

Lemma strip_spec (p : positive) :
  forall e, let '(q, e') := strip p e in e <= e' /\ Zpos q * 2 ^ (e' - e) = Zpos p.
Proof.
  induction p as [ p IH | p IH | ]; intros e; cbn [strip].
  - split; [ lia | ]. rewrite Z.sub_diag. cbn. lia.
  - specialize (IH (e + 1)). destruct (strip p (e + 1)) as [q e'].
    destruct IH as [Hle Hval]. split; [ lia | ].
    replace (e' - e) with (Z.succ (e' - (e + 1))) by lia.
    rewrite Z.pow_succ_r by lia. lia.
  - split; [ lia | ]. rewrite Z.sub_diag. reflexivity.
Qed.

Lemma mk_finite_double (m e : Z) : mk_finite (2 * m) e = mk_finite m (e + 1).
Proof. destruct m; reflexivity. Qed.

Lemma mk_finite_shift (m e j : Z) :
  0 <= j -> mk_finite (m * 2 ^ j) e = mk_finite m (e + j).
Proof.
  intros Hj. revert e. pattern j. apply natlike_ind; [ | | exact Hj ].
  - intros e. rewrite Z.pow_0_r, Z.mul_1_r, Z.add_0_r. reflexivity.
  - intros k Hk IH e. rewrite Z.pow_succ_r by lia.
    replace (m * (2 * 2 ^ k)) with (2 * (m * 2 ^ k)) by lia.
    rewrite mk_finite_double, IH. f_equal. lia.
Qed.

(** The canonical form of a whole number denotes that number. *)
Lemma mk_finite_spec (z : Z) :
  exists m e, mk_finite z 0 = Finite m e /\ 0 <= e /\ m * 2 ^ e = z.
Proof.
  destruct z as [ | p | p ]; cbn [mk_finite].
  - exists 0, 0. repeat split; lia.
  - pose proof (strip_spec p 0) as H. destruct (strip p 0) as [q e'].
    exists (Zpos q), e'. destruct H as [Hle Hval]. rewrite Z.sub_0_r in Hval.
    repeat split; auto.
  - pose proof (strip_spec p 0) as H. destruct (strip p 0) as [q e'].
    exists (Zneg q), e'. destruct H as [Hle Hval]. rewrite Z.sub_0_r in Hval.
    repeat split; auto.
    change (Zneg q) with (- Zpos q). change (Zneg p) with (- Zpos p). lia.
Qed.

Lemma round_pos_integer (n : Z) :
  0 < n < 2 ^ 53 ->
  round_pos n 1 = (n * 2 ^ (52 - Z.log2 n), Z.log2 n - 52).
Proof.
  intros [Hpos Hlt]. unfold round_pos.
  assert (Hlog : 0 <= Z.log2 n <= 52).
  { split; [ apply Z.log2_nonneg | ].
    assert (Z.log2 n < 53) by (apply Z.log2_lt_pow2; lia). lia. }
  change (Z.log2 1) with 0. rewrite Z.sub_0_r.
  pose proof (Z.log2_spec n Hpos) as [Hlow _].
  rewrite (Z.max_l 0 (- Z.log2 n)), (Z.max_r 0 (Z.log2 n)) by lia.
  rewrite Z.pow_0_r, Z.mul_1_r, Z.mul_1_l.
  destruct (n <? 2 ^ Z.log2 n) eqn:E; [ apply Z.ltb_lt in E; lia | ].
  rewrite (Z.max_l (Z.log2 n - 52) (-1074)) by lia.
  rewrite (Z.max_r 0 (- (Z.log2 n - 52))), (Z.max_l 0 (Z.log2 n - 52)) by lia.
  rewrite Z.pow_0_r, Z.mul_1_l, Z.div_1_r, Z.mod_1_r. cbn [Z.mul Z.compare].
  f_equal. f_equal. f_equal. lia.
Qed.

Lemma binary64_integer (negative : bool) (n : Z) :
  0 <= n < 2 ^ 53 ->
  binary64 negative n 1 = mk_finite (if negative then - n else n) 0.
Proof.
  intros [Hpos Hlt]. unfold binary64.
  destruct (Z.eq_dec n 0) as [-> | Hn].
  - destruct negative; reflexivity.
  - destruct (n <=? 0) eqn:E; [ apply Z.leb_le in E; lia | ].
    cbn [orb Z.leb Z.compare]. rewrite round_pos_integer by lia.
    assert (Hlog : 0 <= Z.log2 n <= 52).
    { split; [ apply Z.log2_nonneg | ].
      assert (Z.log2 n < 53) by (apply Z.log2_lt_pow2; lia). lia. }
    destruct (971 <? Z.log2 n - 52) eqn:E1; [ apply Z.ltb_lt in E1; lia | ].
    destruct (Z.log2 n - 52 =? 971) eqn:E2; [ apply Z.eqb_eq in E2; lia | ].
    cbn [orb andb].
    replace (if negative then - (n * 2 ^ (52 - Z.log2 n)) else n * 2 ^ (52 - Z.log2 n))
      with ((if negative then - n else n) * 2 ^ (52 - Z.log2 n))
      by (destruct negative; lia).
    rewrite mk_finite_shift by lia. f_equal. lia.
Qed.

(** A whole number below [2^53] in absolute value is a double. *)
Lemma of_Z_exact (z : Z) : Z.abs z < 2 ^ 53 -> of_Z z = mk_finite z 0.
Proof.
  intros Hz. unfold of_Z, round_dyadic. cbn [Z.max Z.opp Z.pow].
  rewrite Z.pow_0_r, Z.mul_1_r, binary64_integer by lia.
  f_equal. destruct (z <? 0) eqn:E.
  - apply Z.ltb_lt in E. lia.
  - apply Z.ltb_ge in E. lia.
Qed.

Lemma ToIntegerOrInfinity_of_Z (z : Z) :
  Z.abs z < 2 ^ 53 -> ToIntegerOrInfinity (of_Z z) = Integer z.
Proof.
  intros Hz. rewrite of_Z_exact by exact Hz.
  destruct (mk_finite_spec z) as (m & e & -> & He & Hval).
  cbn [ToIntegerOrInfinity].
  rewrite (Z.max_r 0 e), (Z.max_l 0 (- e)) by lia.
  rewrite Z.pow_0_r, Z.quot_1_r. f_equal. exact Hval.
Qed.

(** The product of two such numbers is the double nearest to their
    product. *)
Lemma mul_of_Z (a b : Z) :
  Z.abs a < 2 ^ 53 -> Z.abs b < 2 ^ 53 -> mul (of_Z a) (of_Z b) = of_Z (a * b).
Proof.
  intros Ha Hb. rewrite (of_Z_exact a Ha), (of_Z_exact b Hb).
  destruct (mk_finite_spec a) as (m1 & e1 & -> & He1 & H1).
  destruct (mk_finite_spec b) as (m2 & e2 & -> & He2 & H2).
  cbn [mul]. unfold of_Z, round_dyadic.
  rewrite (Z.max_r 0 (e1 + e2)), (Z.max_l 0 (- (e1 + e2))) by lia.
  cbn [Z.max Z.opp Z.pow]. rewrite !Z.pow_0_r, Z.mul_1_r.
  assert (Hprod : m1 * m2 * 2 ^ (e1 + e2) = a * b).
  { rewrite Z.pow_add_r by lia. subst a b. ring. }
  assert (Hpow : 0 < 2 ^ (e1 + e2)) by (apply Z.pow_pos_nonneg; lia).
  f_equal.
  - rewrite <- Hprod.
    destruct (m1 * m2 <? 0) eqn:E1, (m1 * m2 * 2 ^ (e1 + e2) <? 0) eqn:E2;
      try reflexivity;
      [ apply Z.ltb_lt in E1; apply Z.ltb_ge in E2
      | apply Z.ltb_ge in E1; apply Z.ltb_lt in E2 ];
      nia.
  - rewrite <- Hprod, Z.abs_mul. f_equal. lia.
Qed.

Lemma truthy_of_Z (z : Z) :
  Z.abs z < 2 ^ 53 -> JsNumber.truthy (of_Z z) = negb (z =? 0).
Proof.
  intros Hz. rewrite of_Z_exact by exact Hz.
  destruct (mk_finite_spec z) as (m & e & -> & He & Hval).
  cbn [JsNumber.truthy].
  assert (Hpow : 0 < 2 ^ e) by (apply Z.pow_pos_nonneg; lia).
  destruct (m =? 0) eqn:Em, (z =? 0) eqn:Ez; try reflexivity.
  - apply Z.eqb_eq in Em. apply Z.eqb_neq in Ez. subst m. lia.
  - apply Z.eqb_neq in Em. apply Z.eqb_eq in Ez. nia.
Qed.

Lemma number_or_of_Z (n : option Z) (fallback : Z) :
  (forall z, n = Some z -> Z.abs z < 2 ^ 53) ->
  number_or (option_map of_Z n) (of_Z fallback) = of_Z (requested n fallback).
Proof.
  intros Hn. destruct n as [z | ]; cbn [option_map number_or requested]; [ | reflexivity ].
  rewrite truthy_of_Z by auto. destruct (z =? 0); reflexivity.
Qed.

Lemma number_or_truthy (n : option number) (fallback : number) :
  JsNumber.truthy fallback = true -> JsNumber.truthy (number_or n fallback) = true.
Proof.
  intros Hf. unfold number_or. destruct n as [x | ]; [ | exact Hf ].
  destruct (JsNumber.truthy x) eqn:E; [ exact E | exact Hf ].
Qed.

Lemma slice0_of_Z {A : Type} (xs : list A) (z : Z) :
  Z.abs z < 2 ^ 53 -> slice0 xs (of_Z z) = cut xs z.
Proof.
  intros Hz. unfold slice0, cut. rewrite ToIntegerOrInfinity_of_Z by exact Hz.
  destruct (z <? 0) eqn:E.
  - apply Z.ltb_lt in E. f_equal. lia.
  - apply Z.ltb_ge in E.
    destruct (Z.le_gt_cases z (Z.of_nat (List.length xs))) as [Hle | Hgt].
    + f_equal. lia.
    + rewrite !firstn_all2 by lia. reflexivity.
Qed.

Lemma requested_bound (n : option Z) (fallback bound : Z) :
  (forall z, n = Some z -> Z.abs z < bound) -> Z.abs fallback < bound ->
  Z.abs (requested n fallback) < bound.
Proof.
  intros Hn Hf. destruct n as [z | ]; cbn; [ | exact Hf ].
  destruct (z =? 0); auto.
Qed.

(** ** Lists and parameters *)

Lemma firstn_incl {A : Type} (j : nat) (l : list A) : incl (firstn j l) l.
Proof.
  revert j. induction l as [ | x l IH ]; intros [ | j ]; cbn; intros y Hy;
    try contradiction.
  destruct Hy as [-> | Hy]; [ left; reflexivity | right; exact (IH j y Hy) ].
Qed.

Lemma firstn_NoDup {A : Type} (j : nat) (l : list A) : NoDup l -> NoDup (firstn j l).
Proof.
  revert j. induction l as [ | x l IH ]; intros [ | j ] Hl; cbn; try constructor.
  - inversion Hl; subst. intros Hin. apply firstn_incl in Hin. contradiction.
  - inversion Hl; subst. auto.
Qed.

Lemma omap_returned {A B : Type} (f : A -> outcome B) (xs : list A) :
  forall ys, omap f xs = Returned ys -> Forall2 (fun x y => f x = Returned y) xs ys.
Proof.
  induction xs as [ | x xs IH ]; cbn; intros ys H.
  - injection H as <-. constructor.
  - destruct (f x) as [y | e | ] eqn:Hx; cbn in H; try discriminate H.
    destruct (omap f xs) as [ys' | e | ]; cbn in H; try discriminate H.
    injection H as <-. constructor; auto.
Qed.

Lemma or_else_empty (v : value) :
  or_else v (VString "") = VString "" \/
  (or_else v (VString "") = v /\ JsValue.truthy v = true).
Proof. unfold or_else. destruct (JsValue.truthy v); auto. Qed.

Lemma given_not_empty (s : option string) (x : string) :
  given s = Some x -> s = Some x /\ x <> "".
Proof.
  unfold given. destruct s as [y | ]; [ | discriminate ].
  destruct (y =? "")%string eqn:E; [ discriminate | ].
  intros H. injection H as <-. split; [ reflexivity | ].
  intros ->. discriminate E.
Qed.

Lemma validated_token (params : Params.t) (tokenId given_side : string) :
  validate_order params = inr (tokenId, given_side) ->
  given (Params.token_id params) = Some tokenId
  /\ given (Params.side params) = Some given_side.
Proof.
  rewrite validate_order_unfold.
  destruct (given (Params.token_id params)) as [t | ]; [ | discriminate ].
  destruct (given (Params.side params)) as [s | ]; [ | discriminate ].
  destruct (size_refused params); [ discriminate | ].
  destruct (price_refused params); [ discriminate | ].
  intros H. injection H as <- <-. auto.
Qed.

Lemma validated_order (params : Params.t) (tokenId given_side : string) :
  validate_order params = inr (tokenId, given_side) ->
  tokenId <> "" /\ given_side <> ""
  /\ at_least 5 (parseFloat_param (Params.size params))
  /\ strictly_between 0 1 (parseFloat_param (Params.price params)).
Proof.
  intros Hv.
  assert (Ha : accepted params) by (exists tokenId, given_side; exact Hv).
  apply accepted_iff in Ha. destruct Ha as (_ & _ & Hsize & Hprice).
  destruct (validated_token _ _ _ Hv) as [Ht Hs].
  apply given_not_empty in Ht, Hs. tauto.
Qed.

Lemma seen_spec (seen : list string) (k : string) :
  existsb (fun k' => (k' =? k)%string) seen = true <-> In k seen.
Proof.
  rewrite existsb_exists. split.
  - intros (x & Hx & Heq). apply String.eqb_eq in Heq. now subst.
  - intros Hin. exists k. split; [ exact Hin | apply String.eqb_refl ].
Qed.

(** The orders that open a position carry pairwise distinct tokens, none
    of them seen before, and between them and the tokens seen every
    order's token is covered. *)
Lemma first_orders_spec (orders : list RawOpenOrder.t) :
  forall seen : list string,
  let tokens := map RawOpenOrder.asset_id (first_orders seen orders) in
  NoDup tokens
  /\ (forall k, In k tokens -> ~ In k seen)
  /\ (forall o, In o orders -> In (RawOpenOrder.asset_id o) seen
                               \/ In (RawOpenOrder.asset_id o) tokens)
  /\ (forall o, In o (first_orders seen orders) -> In o orders).
Proof.
  induction orders as [ | o rest IH ]; intros seen; cbn [first_orders].
  - cbn. repeat split; try constructor; intros; contradiction.
  - destruct (existsb _ seen) eqn:Hseen.
    + destruct (IH seen) as (Hnd & Hfresh & Hcover & Hsub). cbv zeta.
      repeat split; auto.
      * intros o' [<- | Hin]; [ left; now apply seen_spec | auto ].
      * intros o' Hin. right. auto.
    + destruct (IH (seen ++ [RawOpenOrder.asset_id o])%list)
        as (Hnd & Hfresh & Hcover & Hsub). cbv zeta. cbn [map].
      assert (Hnot : ~ In (RawOpenOrder.asset_id o) seen).
      { intros Hin. apply seen_spec in Hin. congruence. }
      repeat split.
      * constructor; [ | exact Hnd ].
        intros Hin. apply (Hfresh _ Hin). apply in_or_app. right. now left.
      * intros k [<- | Hin]; [ exact Hnot | ].
        intros Hk. apply (Hfresh _ Hin). apply in_or_app. now left.
      * intros o' [<- | Hin]; [ right; now left | ].
        destruct (Hcover o' Hin) as [Hs | Ht]; [ | right; now right ].
        apply in_app_or in Hs. destruct Hs as [Hs | [<- | []]];
          [ now left | right; now left ].
      * intros o' [<- | Hin]; [ now left | right; auto ].
Qed.

Lemma register_tools_prefix (ctx : PluginContext) (flag : bool) (tools : list Tool) :
  (exists k, fst (register_tools ctx flag tools)
             = firstn k (map wrap (eligible flag tools)))
  /\ (snd (register_tools ctx flag tools) = None ->
      fst (register_tools ctx flag tools) = map wrap (eligible flag tools)).
Proof.
  unfold eligible. induction tools as [ | tool rest [[k Hk] IH] ]; cbn.
  - split; [ exists 0%nat; reflexivity | reflexivity ].
  - destruct (skipped flag tool); cbn.
    + split; [ exists k; exact Hk | exact IH ].
    + destruct (registerTool ctx (wrap tool)) as [e | u]; cbn.
      * split; [ exists 0%nat; reflexivity | discriminate ].
      * destruct (register_tools ctx flag rest) as [taken e]. cbn in *. split.
        -- exists (S k). cbn. now rewrite Hk.
        -- intros He. now rewrite (IH He).
Qed.

Lemma config_input_readonly
  (parseInt10 : string -> number) (process_env : string -> option string)
  (pluginConfig : PluginConfig.t) (privateKey : string) :
  asks_readonly pluginConfig process_env ->
  ConfigInput.readonly (config_input parseInt10 process_env pluginConfig privateKey) = true.
Proof.
  intros [Hplugin | (s & Henv & Hs)]; cbn [config_input ConfigInput.readonly].
  - rewrite Hplugin. reflexivity.
  - rewrite Henv, Hs. destruct (PluginConfig.readonly pluginConfig) as [[ | ] | ]; reflexivity.
Qed.

(** ** What every tool does *)

(** X9.  None of the eight tools throws: what a collaborator throws comes
    back as an envelope.  And the envelope a tool returns is flagged as
    an error exactly when its payload is an error message. *)
Lemma tools_answer_with_an_honest_envelope
  (JSON_parse : string -> option value) (toStr : number -> string) (client : Env)
  (tool : Tool) (id : string) (params : Params.t) :
  In tool (createPolymarketTools JSON_parse toStr client) ->
  (forall e, result (execute tool id params) <> Threw e)
  /\ (forall r, result (execute tool id params) = Returned r -> honest r).
Proof.
  intros Hin. each_tool Hin.
  all: unfold_tools; unfold result, honest; walk.
  all: (split; [ let H := fresh in intros ? H; discriminate H | ]).
  all: let H := fresh in
       intros ? H; try discriminate H; injection H as <-;
       cbn [isError content toolResult errorResult].
  all: split; [ let H := fresh in intros H; try discriminate H; eauto
              | let H := fresh in intros [? H]; try discriminate H; reflexivity ].
Qed.

Lemma honest_envelope_witness : honest (errorResult "token_id is required").
Proof.
  apply (proj2 (tools_answer_with_an_honest_envelope Json.parse Sample.toString
                  Sample.client
                  {| name := "polymarket_get_orderbook";
                     execute := polymarket_get_orderbook Sample.client |}
                  "call-1" Params.empty
                  (or_intror (or_intror (or_introl eq_refl))))).
  reflexivity.
Defined.

(** X10.  Every tool calls [client.initialize()] first, and only once;
    when it throws, nothing else is called and the tool returns the
    error envelope of what it threw. *)
Lemma initialize_comes_first
  (JSON_parse : string -> option value) (toStr : number -> string) (client : Env)
  (tool : Tool) (id : string) (params : Params.t) :
  In tool (createPolymarketTools JSON_parse toStr client) ->
  (exists rest, calls (execute tool id params) = CallInitialize :: rest
                /\ ~ In CallInitialize rest)
  /\ (forall e, initialize client = inl e ->
      execute tool id params
      = ([(CallInitialize, Some e)], Returned (errorResult (error_message e)))).
Proof.
  intros Hin. each_tool Hin.
  all: unfold_tools; unfold calls, trace; walk.
  all: split;
    [ eexists; split; [ reflexivity | ];
      cbn [map fst In];
      let H := fresh in
      intros H; repeat (destruct H as [H | H]; [ discriminate H | ]); exact H
    | let H := fresh in
      intros ? H; first [ discriminate H | injection H as <-; reflexivity ] ].
Qed.

Lemma initialize_first_witness :
  exists rest,
    calls (polymarket_get_balance Sample.client "call-1" Params.empty)
    = CallInitialize :: rest
    /\ ~ In CallInitialize rest.
Proof.
  exact (proj1 (initialize_comes_first Json.parse Sample.toString Sample.client
                  {| name := "polymarket_get_balance";
                     execute := polymarket_get_balance Sample.client |}
                  "call-1" Params.empty
                  (or_intror (or_intror (or_intror (or_introl eq_refl)))))).
Defined.

(** X11.  An order is created, posted or cancelled only by one of the two
    write tools, and only after [client.initialize()] and
    [client.ensureWriteAccess()] have returned. *)
Lemma order_calls_need_write_access
  (JSON_parse : string -> option value) (toStr : number -> string) (client : Env)
  (tool : Tool) (id : string) (params : Params.t) (c : Call) :
  In tool (createPolymarketTools JSON_parse toStr client) ->
  In c (calls (execute tool id params)) ->
  order_call c = true ->
  write_tool (name tool) = true
  /\ initialize client = inr tt
  /\ ensureWriteAccess client = inr tt.
Proof.
  intros Hin. each_tool Hin.
  all: unfold_tools; unfold calls, trace; walk.
  all: cbn [map fst In];
    let H := fresh in
    let Hc := fresh in
    intros H Hc;
    repeat (destruct H as [H | H]; [ subst c; try discriminate Hc | ]);
    try contradiction; auto.
Qed.

Lemma order_calls_witness :
  write_tool "polymarket_cancel_order" = true
  /\ initialize Sample.client = inr tt
  /\ ensureWriteAccess Sample.client = inr tt.
Proof.
  apply (order_calls_need_write_access Json.parse Sample.toString Sample.client
           {| name := "polymarket_cancel_order";
              execute := polymarket_cancel_order Sample.client |}
           "call-1" (Sample.cancel_params (Some "order-1")) (CallCancelOrder "order-1")).
  - do 7 right. left. reflexivity.
  - do 3 right. left. reflexivity.
  - reflexivity.
Defined.

(** X12.  Every identifier a tool hands to a collaborator is the one the
    caller gave, and is not empty: the token id of an order book, a
    market lookup or an order, the order id of a cancellation, and the
    condition id in the address of a single-market fetch. *)
Lemma identifiers_sent_are_the_callers
  (JSON_parse : string -> option value) (toStr : number -> string) (client : Env)
  (tool : Tool) (id : string) (params : Params.t) (c : Call) :
  In tool (createPolymarketTools JSON_parse toStr client) ->
  In c (calls (execute tool id params)) ->
  carries_the_callers_identifier params c.
Proof.
  intros Hin. each_tool Hin.
  all: unfold_tools; unfold calls, trace; walk.
  all: cbn [map fst In];
    let H := fresh in
    intros H;
    repeat (destruct H as [H | H]; [ subst c | ]);
    try contradiction;
    cbn [carries_the_callers_identifier path tokenID order_args]; auto.
  all: try (right; eexists; split; [ eassumption | reflexivity ]).
  all: match goal with
       | Hv : validate_order _ = inr _ |- _ =>
           destruct (validated_token _ _ _ Hv); assumption
       end.
Qed.

Lemma identifiers_witness :
  given (Params.token_id (Sample.order_params (Some "tok") None None None)) = Some "tok".
Proof.
  apply (identifiers_sent_are_the_callers Json.parse Sample.toString Sample.client
           {| name := "polymarket_get_orderbook";
              execute := polymarket_get_orderbook Sample.client |}
           "call-1" (Sample.order_params (Some "tok") None None None)
           (CallGetOrderBook "tok")).
  - do 2 right. left. reflexivity.
  - do 2 right. left. reflexivity.
Defined.

(** ** The two write tools *)

(** X13.  Place-order calls [createOrder] at most once and [postOrder]
    at most once, and never cancels.  The order it creates is built from parameters
    that passed the four checks: a token id that is not empty, a size of
    at least 5 and a price strictly between 0 and 1; what the market
    lookup answered has no part in it.  The order it posts is the one
    [createOrder] returned for those arguments. *)
Lemma only_validated_orders_are_created
  (toStr : number -> string) (client : Env) (id : string) (params : Params.t) :
  let run := polymarket_place_order toStr client id params in
  (forall args, In (CallCreateOrder args) (calls run) ->
     exists tokenId given_side,
       validate_order params = inr (tokenId, given_side)
       /\ args = order_args params tokenId given_side
       /\ tokenID args <> ""
       /\ at_least 5 (size args)
       /\ strictly_between 0 1 (price args))
  /\ (forall order, In (CallPostOrder order) (calls run) ->
      exists tokenId given_side,
        validate_order params = inr (tokenId, given_side)
        /\ createOrder client (order_args params tokenId given_side) = inr order)
  /\ (List.length (filter create_call (calls run)) <= 1)%nat
  /\ (List.length (filter post_call (calls run)) <= 1)%nat
  /\ (forall orderId, ~ In (CallCancelOrder orderId) (calls run)).
Proof.
  cbv zeta. unfold polymarket_place_order, market_info, catch_all, calls, trace.
  walk.
  all: cbn [map fst In filter create_call post_call List.length].
  all: repeat split; try lia.
  all: let H := fresh in
       intros ? H;
       repeat (destruct H as [H | H]; [ try discriminate H | ]);
       try contradiction;
       try (injection H as <-).
  all: match goal with
       | Hv : validate_order _ = inr (?t, ?s) |- _ =>
           exists t, s; destruct (validated_order _ _ _ Hv) as (? & ? & ? & ?)
       end.
  all: repeat split; auto.
Qed.

Lemma validated_orders_witness :
  exists tokenId given_side,
    validate_order (Sample.order_params (Some "tok") (Some "BUY") (Some "10") (Some "0.5"))
    = inr (tokenId, given_side)
    /\ createOrder Sample.client
         (order_args (Sample.order_params (Some "tok") (Some "BUY") (Some "10") (Some "0.5"))
            tokenId given_side)
       = inr {| signed := "0xsigned" |}.
Proof.
  apply (proj1 (proj2 (only_validated_orders_are_created Sample.toString Sample.client
                         "call-1"
                         (Sample.order_params (Some "tok") (Some "BUY") (Some "10")
                            (Some "0.5"))))
           {| signed := "0xsigned" |}).
  vm_compute. do 5 right. left. reflexivity.
Defined.

(** X14.  An envelope of a write tool without the error flag means the
    exchange answered: for place-order, the parameters passed the checks,
    [createOrder] returned an order and [postOrder] returned the response
    the result is built from, with a tick size that is neither 0 nor
    [NaN] (0.01 and no negative risk when the market lookup threw); for
    cancel-order, [cancelOrder] returned the response reported. *)
Lemma a_success_envelope_means_the_exchange_answered
  (toStr : number -> string) (client : Env) (id : string) (params : Params.t)
  (r : ToolResult) :
  isError r = false ->
  (result (polymarket_place_order toStr client id params) = Returned r ->
   exists tokenId given_side signedOrder response tickSize negRisk,
     validate_order params = inr (tokenId, given_side)
     /\ createOrder client (order_args params tokenId given_side) = inr signedOrder
     /\ postOrder client signedOrder = inr response
     /\ content r
        = OrderData (order_result toStr params tokenId given_side tickSize negRisk response)
     /\ JsNumber.truthy tickSize = true
     /\ (forall failure, getMarket client tokenId = inl failure ->
         tickSize = default_tick_size /\ negRisk = false))
  /\ (result (polymarket_cancel_order client id params) = Returned r ->
      exists orderId response,
        given (Params.order_id params) = Some orderId
        /\ cancelOrder client orderId = inr response
        /\ content r = CancelData orderId "cancelled" response).
Proof.
  intros Hflag. split.
  - unfold polymarket_place_order, market_info, catch_all, result. walk.
    all: let H := fresh in
         intros H; try discriminate H; injection H as <-; try discriminate Hflag.
    all: do 6 eexists; repeat split; try eassumption; try reflexivity.
    all: try (apply number_or_truthy; reflexivity).
    all: congruence.
  - unfold polymarket_cancel_order, catch_all, result. walk.
    all: let H := fresh in
         intros H; try discriminate H; injection H as <-; try discriminate Hflag.
    do 2 eexists; repeat split; try eassumption; reflexivity.
Qed.

Lemma success_envelope_witness :
  exists orderId response,
    given (Params.order_id (Sample.cancel_params (Some "order-1"))) = Some orderId
    /\ cancelOrder Sample.client orderId = inr response
    /\ CancelData "order-1" "cancelled" VNull = CancelData orderId "cancelled" response.
Proof.
  exact (proj2 (a_success_envelope_means_the_exchange_answered Sample.toString
                  Sample.client "call-1" (Sample.cancel_params (Some "order-1"))
                  (toolResult (CancelData "order-1" "cancelled" VNull) false) eq_refl)
           eq_refl).
Defined.

(** ** Activation *)

(** X15.  A run of [activate] logs at most one line, at level ["error"].
    What it registers is an initial stretch of the tools the read-only
    flag leaves, in their order (a tool the host refuses ends the loop,
    and the tools taken before stay registered); when nothing is logged
    it is all of them.  The registered names are distinct names of the
    eight tools. *)
Lemma activation_registers_in_order_and_logs_what_failed
  (JSON_parse : string -> option value) (toStr : number -> string)
  (parseInt10 : string -> number) (process_env : string -> option string)
  (Config : Type) (config_readonly : Config -> bool)
  (createConfig : ConfigInput.t -> thrown + Config)
  (ClobClientWrapper : Config -> thrown + Env)
  (ctx : PluginContext) :
  let a := activate JSON_parse toStr parseInt10 process_env Config config_readonly
             createConfig ClobClientWrapper ctx in
  (logged a = [] \/ exists message, logged a = [log ctx "error" message])
  /\ (registered a = []
      \/ exists privateKey config client k,
           createConfig (config_input parseInt10 process_env (plugin_config ctx) privateKey)
           = inr config
           /\ ClobClientWrapper config = inr client
           /\ registered a
              = firstn k (map wrap (eligible (config_readonly config)
                                      (createPolymarketTools JSON_parse toStr client))))
  /\ (logged a = [] ->
      exists privateKey config client,
        createConfig (config_input parseInt10 process_env (plugin_config ctx) privateKey)
        = inr config
        /\ ClobClientWrapper config = inr client
        /\ registered a
           = map wrap (eligible (config_readonly config)
                         (createPolymarketTools JSON_parse toStr client)))
  /\ NoDup (map registered_name (registered a))
  /\ incl (map registered_name (registered a)) tool_names.
Proof.
  cbv zeta. unfold activate.
  destruct (given _) as [privateKey | ];
    [ | cbn; repeat split; eauto using NoDup_nil, incl_nil_l; discriminate ].
  destruct (createConfig _) as [e | config] eqn:Hconfig;
    [ cbn; repeat split; eauto using NoDup_nil, incl_nil_l; discriminate | ].
  destruct (ClobClientWrapper config) as [e | client] eqn:Hclient;
    [ cbn; repeat split; eauto using NoDup_nil, incl_nil_l; discriminate | ].
  destruct (register_tools_prefix ctx (config_readonly config)
              (createPolymarketTools JSON_parse toStr client)) as [[k Hk] Hall].
  destruct (register_tools ctx (config_readonly config)
              (createPolymarketTools JSON_parse toStr client)) as [taken e].
  cbn [fst snd] in Hk, Hall.
  assert (Hnames : map registered_name taken
                   = firstn k (map name (eligible (config_readonly config)
                                 (createPolymarketTools JSON_parse toStr client)))).
  { rewrite Hk, <- firstn_map, map_map. reflexivity. }
  assert (Hsub : NoDup (map registered_name taken)
                 /\ incl (map registered_name taken) tool_names).
  { rewrite Hnames. split.
    - apply firstn_NoDup. destruct (config_readonly config); cbn;
        repeat constructor; cbn; intuition discriminate.
    - eapply incl_tran; [ apply firstn_incl | ].
      unfold tool_names. destruct (config_readonly config); cbn;
        intros x Hx; cbn in *; intuition auto. }
  destruct e as [e | ]; cbn [registered logged].
  - split; [ right; eauto | ].
    split; [ right; exists privateKey, config, client, k; auto | ].
    split; [ discriminate | exact Hsub ].
  - split; [ left; reflexivity | ].
    split; [ right; exists privateKey, config, client, k; auto | ].
    split; [ intros _; exists privateKey, config, client; auto | exact Hsub ].
Qed.

Lemma activation_witness :
  NoDup (map registered_name (registered (Sample.activation false)))
  /\ incl (map registered_name (registered (Sample.activation false))) tool_names.
Proof.
  exact (proj2 (proj2 (proj2 (activation_registers_in_order_and_logs_what_failed
           Json.parse Sample.toString parseFloat Sample.no_env bool (fun b => b)
           Sample.createConfig (fun _ => inr Sample.client) (Sample.host false))))).
Defined.

(** X16.  When read-only mode is asked for, by the plugin configuration
    or by the environment (a plugin setting of [false] does not undo the
    environment's), and [createConfig] keeps the flag it is given, no
    tool that [activate] registers ever creates, posts or cancels an
    order, whatever arguments the host calls it with. *)
Lemma a_readonly_plugin_cannot_trade
  (JSON_parse : string -> option value) (toStr : number -> string)
  (parseInt10 : string -> number) (process_env : string -> option string)
  (Config : Type) (config_readonly : Config -> bool)
  (createConfig : ConfigInput.t -> thrown + Config)
  (ClobClientWrapper : Config -> thrown + Env)
  (ctx : PluginContext) :
  (forall input config, createConfig input = inr config ->
     config_readonly config = ConfigInput.readonly input) ->
  asks_readonly (plugin_config ctx) process_env ->
  forall r args c,
    In r (registered (activate JSON_parse toStr parseInt10 process_env Config
                        config_readonly createConfig ClobClientWrapper ctx)) ->
    In c (calls (registered_execute r args)) ->
    order_call c = false.
Proof.
  intros Hkeep Hasks r args c. unfold activate.
  destruct (given _) as [privateKey | ]; [ | intros [] ].
  destruct (createConfig _) as [e | config] eqn:Hconfig; [ intros [] | ].
  destruct (ClobClientWrapper config) as [e | client]; [ intros [] | ].
  rewrite (Hkeep _ _ Hconfig), (config_input_readonly _ _ _ _ Hasks).
  intros Hin.
  assert (Hfst : In r (fst (register_tools ctx true
                              (createPolymarketTools JSON_parse toStr client)))).
  { destruct (register_tools ctx true (createPolymarketTools JSON_parse toStr client))
      as [taken [e | ]]; exact Hin. }
  clear Hin.
  destruct (register_tools_taken _ _ _ _ Hfst) as (tool & Htool & Hskip & ->).
  clear Hfst. cbn [wrap registered_execute].
  destruct (extractParams args) as [params | text]; [ | intros [] ].
  generalize (match args with ArgString s :: _ => s | _ => "unknown" end) as id.
  intros id.
  each_tool Htool; try discriminate Hskip; clear Hskip.
  all: unfold_tools; unfold calls, trace; walk.
  all: cbn [map fst In];
    let H := fresh in
    intros H; repeat (destruct H as [H | H]; [ subst c; reflexivity | ]);
    contradiction.
Qed.

Lemma readonly_plugin_witness : order_call CallGetBalanceAllowance = false.
Proof.
  apply (a_readonly_plugin_cannot_trade Json.parse Sample.toString parseFloat
           readonly_env bool (fun b => b) Sample.createConfig
           (fun _ => inr Sample.client) (Sample.host false)
           (fun input config H =>
              match H in (_ = c) return
                    match c with inr b => b = ConfigInput.readonly input | inl _ => True end
              with eq_refl => eq_refl end)
           (or_intror (ex_intro _ "TRUE" (conj eq_refl eq_refl)))
           (wrap {| name := "polymarket_get_balance";
                    execute := polymarket_get_balance Sample.client |})
           [ArgObject Params.empty]).
  - do 3 right. left. reflexivity.
  - do 3 right. left. reflexivity.
Defined.

(** X17.  The two calling conventions of a registered tool run the same
    operation: the parameters after a tool call id, or the parameters
    first; no tool reads the id.  An argument list that carries no
    parameters runs the tool on empty parameters, except one that puts a
    text that is not empty where the parameters belong: that text is
    what [extractParams] returns. *)
Lemma both_calling_conventions_run_the_same_operation
  (JSON_parse : string -> option value) (toStr : number -> string) (client : Env)
  (tool : Tool) (toolCallId : string) (params : Params.t) (rest rest' : list HostArg) :
  In tool (createPolymarketTools JSON_parse toStr client) ->
  registered_execute (wrap tool) (ArgString toolCallId :: ArgObject params :: rest)
  = execute tool toolCallId params
  /\ registered_execute (wrap tool) (ArgObject params :: rest')
     = execute tool toolCallId params
  /\ (forall args, carries_params args = false -> carries_text args = false ->
      registered_execute (wrap tool) args = execute tool toolCallId Params.empty)
  /\ (forall id text args, text <> "" ->
      extractParams (ArgString id :: ArgString text :: args) = ParamsText text).
Proof.
  intros Hin.
  assert (Hempty : forall args, carries_params args = false -> carries_text args = false ->
                   extractParams args = ParamsRecord Params.empty).
  { intros [ | [s | p | ] [ | [s' | p' | ] args ] ]; cbn; try reflexivity;
      try discriminate.
    destruct (s' =? "")%string; [ reflexivity | discriminate ]. }
  assert (Htext : forall id text args, text <> "" ->
                  extractParams (ArgString id :: ArgString text :: args) = ParamsText text).
  { intros id text args Htext. cbn.
    destruct (text =? "")%string eqn:E; [ | reflexivity ].
    apply String.eqb_eq in E. contradiction. }
  each_tool Hin.
  all: split; [ reflexivity | split; [ reflexivity | split; [ | exact Htext ] ] ].
  all: intros args Hargs Hnotext; cbn [wrap registered_execute];
    rewrite (Hempty args Hargs Hnotext); reflexivity.
Qed.

Lemma calling_conventions_witness :
  registered_execute
    (wrap {| name := "polymarket_cancel_order";
             execute := polymarket_cancel_order Sample.client |})
    [ArgObject (Sample.cancel_params (Some "order-1"))]
  = polymarket_cancel_order Sample.client "call-1" (Sample.cancel_params (Some "order-1")).
Proof.
  refine (proj1 (proj2 (both_calling_conventions_run_the_same_operation
            Json.parse Sample.toString Sample.client
            {| name := "polymarket_cancel_order";
               execute := polymarket_cancel_order Sample.client |}
            "call-1" (Sample.cancel_params (Some "order-1")) [] [] _))).
  do 7 right. left. reflexivity.
Defined.

(** ** Whole-number limits *)

(** X18.  With a whole number as [limit] (10 when it is missing or 0),
    get-markets asks the Gamma endpoint for three times as many markets,
    open ones only, with the search text in lower case when there is
    one; and from an OK answer that is an array it formats exactly the
    first [limit] markets that pass the filter, in their order. *)
Lemma an_integer_limit_lists_exactly_the_first_markets
  (JSON_parse : string -> option value) (toStr : number -> string)
  (client : Env) (id : string) (params : Params.t) (n : option Z) (baseUrl : string)
  (response : Response (option (list GammaMarket.t))) (data : list GammaMarket.t) :
  initialize client = inr tt ->
  getGammaApiUrl client = inr baseUrl ->
  Params.limit params = option_map of_Z n ->
  (forall z, n = Some z -> Z.abs z < 2 ^ 53) ->
  let url :=
    {| base := baseUrl; path := "/markets";
       query := [ ("limit", toStr (of_Z (3 * requested n 10)));
                  ("offset", toStr (number_or (Params.offset params) (of_Z 0)));
                  ("closed", "false") ]
                ++ match given (Params.search params) with
                   | Some s => [("slug_contains", toLowerCase s)]
                   | None => []
                   end |} in
  let run := polymarket_get_markets JSON_parse toStr client id params in
  (exists rest, calls run = CallInitialize :: CallGetGammaApiUrl :: CallFetch url :: rest)
  /\ (fetch_markets client url = inr response ->
      ok response = true ->
      json response = inr (Some data) ->
      result run
      = match omap (formatMarket JSON_parse)
                (cut (filter keep_market data) (requested n 10)) with
        | Returned formatted => Returned (toolResult (MarketListData formatted) false)
        | Threw e => Returned (errorResult (error_message e))
        | Unmodelled => Unmodelled
        end).
Proof.
  intros Hinit Hbase Hlimit Hn. cbv zeta.
  assert (Hreq : Z.abs (requested n 10) < 2 ^ 53)
    by (apply requested_bound; [ exact Hn | reflexivity ]).
  assert (Hlim : number_or (Params.limit params) (of_Z 10) = of_Z (requested n 10))
    by (rewrite Hlimit; apply number_or_of_Z; exact Hn).
  assert (Hmul : mul (of_Z (requested n 10)) (of_Z 3) = of_Z (3 * requested n 10))
    by (rewrite mul_of_Z by (auto; reflexivity); f_equal; lia).
  unfold polymarket_get_markets, fetchGammaMarkets.
  rewrite Hinit, Hbase, Hlim. cbv zeta. rewrite Hmul.
  remember (of_Z (3 * requested n 10)) as asked eqn:Hasked. clear Hasked Hmul.
  unfold catch_all, calls, trace, result.
  destruct (given (Params.search params)) as [s | ]; cbn [app].
  all: split;
    [ quiet; destruct (fetch_markets client _) as [e | r]; quiet;
      [ solve [ eexists; reflexivity ] | ];
      destruct (ok r); quiet; [ | solve [ eexists; reflexivity ] ];
      destruct (json r) as [e | [d | ]]; quiet; try solve [ eexists; reflexivity ];
      destruct (omap _ _); quiet; solve [ eexists; reflexivity ]
    | intros Hfetch Hok Hjson; quiet; rewrite Hfetch; quiet; rewrite Hok; quiet;
      rewrite Hjson; quiet; rewrite slice0_of_Z by exact Hreq;
      destruct (omap _ _) as [formatted | e | ]; reflexivity ].
Qed.

Lemma integer_limit_witness :
  exists rest,
    calls (polymarket_get_markets Json.parse Sample.toString Sample.client "call-1"
             (Sample.list_params (Some (of_Z 2))))
    = CallInitialize :: CallGetGammaApiUrl
      :: CallFetch {| base := "https://gamma-api.polymarket.com"; path := "/markets";
                      query := [("limit", "3p1"); ("offset", "0p0"); ("closed", "false")] |}
      :: rest.
Proof.
  refine (proj1 (an_integer_limit_lists_exactly_the_first_markets Json.parse
                   Sample.toString Sample.client "call-1"
                   (Sample.list_params (Some (of_Z 2))) (Some 2)
                   "https://gamma-api.polymarket.com"
                   (Sample.response 200 "OK" (Some [])) [] eq_refl eq_refl eq_refl _)).
  intros z H. injection H as <-. reflexivity.
Defined.

(** X19.  With a whole number as [limit] (20 when it is missing or 0),
    get-trades returns exactly the first [limit] trades the client
    returned, in their order; with a negative [limit] it drops that many
    from the end instead; and no trades when the client returned none. *)
Lemma an_integer_limit_cuts_the_trades
  (client : Env) (id : string) (params : Params.t) (n : option Z)
  (allTrades : option (list RawTrade.t)) :
  initialize client = inr tt ->
  getClient client = inr tt ->
  getTrades client = inr allTrades ->
  Params.limit params = option_map of_Z n ->
  (forall z, n = Some z -> Z.abs z < 2 ^ 53) ->
  result (polymarket_get_trades client id params)
  = Returned (toolResult
                (TradeListData
                   (map format_trade
                      (cut (match allTrades with Some l => l | None => [] end)
                         (requested n 20))))
                false).
Proof.
  intros Hinit Hclient Htrades Hlimit Hn.
  assert (Hreq : Z.abs (requested n 20) < 2 ^ 53)
    by (apply requested_bound; [ exact Hn | reflexivity ]).
  unfold polymarket_get_trades.
  rewrite Hinit, Hclient, Htrades, Hlimit, number_or_of_Z by exact Hn.
  unfold catch_all, result. quiet. rewrite slice0_of_Z by exact Hreq. reflexivity.
Qed.

Lemma negative_limit_witness :
  result (polymarket_get_trades
            (Sample.with_getTrades Sample.client
               (inr (Some [Sample.trade "t1" (Some "1700000000") None;
                           Sample.trade "t2" None (Some "1700000001");
                           Sample.trade "t3" None None])))
            "call-1" (Sample.list_params (Some (of_Z (-1)))))
  = Returned (toolResult
                (TradeListData
                   [format_trade (Sample.trade "t1" (Some "1700000000") None);
                    format_trade (Sample.trade "t2" None (Some "1700000001"))])
                false).
Proof.
  refine (an_integer_limit_cuts_the_trades
            (Sample.with_getTrades Sample.client
               (inr (Some [Sample.trade "t1" (Some "1700000000") None;
                           Sample.trade "t2" None (Some "1700000001");
                           Sample.trade "t3" None None])))
            "call-1" (Sample.list_params (Some (of_Z (-1)))) (Some (-1))
            (Some [Sample.trade "t1" (Some "1700000000") None;
                   Sample.trade "t2" None (Some "1700000001");
                   Sample.trade "t3" None None])
            eq_refl eq_refl eq_refl eq_refl _).
  intros z H. injection H as <-. reflexivity.
Defined.

(** ** Positions, markets *)

(** X20.  The positions get-positions returns carry pairwise distinct
    token ids, every open order's token has its position, every position
    is the summary of one of the orders, and there are no more positions
    than orders. *)
Lemma positions_are_one_per_token
  (client : Env) (id : string) (params : Params.t) (orders : list RawOpenOrder.t) :
  initialize client = inr tt ->
  getClient client = inr tt ->
  getOpenOrders client = inr (Some orders) ->
  exists positions,
    result (polymarket_get_positions client id params)
    = Returned (toolResult (PositionsData positions (map format_order orders)) false)
    /\ NoDup (map Position.token_id positions)
    /\ (forall o, In o orders ->
        In (RawOpenOrder.asset_id o) (map Position.token_id positions))
    /\ (forall p, In p positions -> exists o, In o orders /\ p = position_of o)
    /\ (List.length positions <= List.length orders)%nat.
Proof.
  intros Hinit Hclient Horders.
  exists (map position_of (first_orders [] orders)).
  destruct (first_orders_spec orders []) as (Hnd & _ & Hcover & Hsub).
  assert (Htok : map Position.token_id (map position_of (first_orders [] orders))
                 = map RawOpenOrder.asset_id (first_orders [] orders)).
  { rewrite map_map. reflexivity. }
  split; [ | split; [ | split; [ | split ] ] ].
  - unfold polymarket_get_positions. rewrite Hinit, Hclient, Horders.
    destruct orders as [ | o rest ]; [ reflexivity | ].
    cbn [result bind call ret catch_all try_catch snd app].
    rewrite (positions_of_fold (o :: rest) []). reflexivity.
  - rewrite Htok. exact Hnd.
  - intros o Hin. rewrite Htok. destruct (Hcover o Hin) as [[] | H]. exact H.
  - intros p Hin. apply in_map_iff in Hin. destruct Hin as (o & <- & Hin). eauto.
  - rewrite length_map. apply NoDup_incl_length.
    + clear -Hnd. induction (first_orders [] orders) as [ | o l IH ];
        [ constructor | ].
      cbn in Hnd. inversion Hnd; subst. constructor; [ | auto ].
      intros Hin. apply H1. now apply in_map.
    + exact Hsub.
Qed.

Lemma one_per_token_witness :
  exists positions,
    result (polymarket_get_positions
              (Sample.with_getOpenOrders Sample.client
                 (inr (Some [Sample.order "o1" "a" "0.40" "10";
                             Sample.order "o2" "b" "0.50" "5";
                             Sample.order "o3" "a" "0.45" "20"])))
              "call-1" Params.empty)
    = Returned (toolResult
                  (PositionsData positions
                     (map format_order [Sample.order "o1" "a" "0.40" "10";
                                        Sample.order "o2" "b" "0.50" "5";
                                        Sample.order "o3" "a" "0.45" "20"]))
                  false)
    /\ NoDup (map Position.token_id positions).
Proof.
  destruct (positions_are_one_per_token
              (Sample.with_getOpenOrders Sample.client
                 (inr (Some [Sample.order "o1" "a" "0.40" "10";
                             Sample.order "o2" "b" "0.50" "5";
                             Sample.order "o3" "a" "0.45" "20"])))
              "call-1" Params.empty
              [Sample.order "o1" "a" "0.40" "10";
               Sample.order "o2" "b" "0.50" "5";
               Sample.order "o3" "a" "0.45" "20"]
              eq_refl eq_refl eq_refl) as (positions & Hrun & Hnd & _).
  exists positions. split; [ exact Hrun | exact Hnd ].
Defined.

(** X21.  Get-market answers with a market only when the fetch returned
    an OK response whose body is a market that [formatMarket] formats;
    an OK response whose body is [null] is answered as a market not
    found. *)
Lemma a_market_answer_comes_from_the_body
  (JSON_parse : string -> option value) (client : Env) (id : string)
  (params : Params.t) :
  let run := polymarket_get_market JSON_parse client id params in
  (forall r, result run = Returned r -> isError r = false ->
     exists conditionId baseUrl response market formatted,
       given (Params.condition_id params) = Some conditionId
       /\ getGammaApiUrl client = inr baseUrl
       /\ fetch_market client
            {| base := baseUrl; path := "/markets/" ++ conditionId; query := [] |}
          = inr response
       /\ ok response = true
       /\ json response = inr (Some market)
       /\ formatMarket JSON_parse market = Returned formatted
       /\ content r = MarketData formatted)
  /\ (forall conditionId baseUrl response,
        initialize client = inr tt ->
        given (Params.condition_id params) = Some conditionId ->
        getGammaApiUrl client = inr baseUrl ->
        fetch_market client
          {| base := baseUrl; path := "/markets/" ++ conditionId; query := [] |}
        = inr response ->
        ok response = true ->
        json response = inr None ->
        result run = Returned (errorResult ("Market not found: " ++ conditionId))).
Proof.
  cbv zeta. split.
  - unfold polymarket_get_market, fetchGammaMarket, catch_all, result. walk.
    all: let H := fresh in
         let Hflag := fresh in
         intros ? H Hflag; try discriminate H; injection H as <-;
         try discriminate Hflag.
    do 5 eexists. repeat split; try eassumption; reflexivity.
  - intros conditionId baseUrl response Hinit Hid Hbase Hfetch Hok Hjson.
    unfold polymarket_get_market, fetchGammaMarket.
    rewrite Hinit, Hid, Hbase. quiet. rewrite Hfetch. quiet. rewrite Hok. quiet.
    rewrite Hjson. reflexivity.
Qed.

Lemma null_body_witness :
  result (polymarket_get_market Json.parse
            (Sample.with_fetch_market Sample.client
               (fun _ => inr (Sample.response 200 "OK" None)))
            "call-1" (Sample.market_params (Some "0xabc")))
  = Returned (errorResult "Market not found: 0xabc").
Proof.
  exact (proj2 (a_market_answer_comes_from_the_body Json.parse
                  (Sample.with_fetch_market Sample.client
                     (fun _ => inr (Sample.response 200 "OK" None)))
                  "call-1" (Sample.market_params (Some "0xabc")))
           "0xabc" "https://gamma-api.polymarket.com" (Sample.response 200 "OK" None)
           eq_refl eq_refl eq_refl eq_refl eq_refl eq_refl).
Defined.

(** X22.  A market [formatMarket] returns keeps the condition id, the
    question, the end date and the two flags of the raw market; its
    volume is never empty (the raw volume, or ["0"]); it has one token
    per entry of the decoded outcomes; and each token id is a truthy
    value or the empty string. *)
Lemma a_formatted_market_keeps_the_shape_of_the_raw_one
  (JSON_parse : string -> option value) (market : GammaMarket.t) (m : Market.t) :
  formatMarket JSON_parse market = Returned m ->
  Market.condition_id m = GammaMarket.conditionId market
  /\ Market.question m = GammaMarket.question market
  /\ Market.active m = GammaMarket.active market
  /\ Market.closed m = GammaMarket.closed market
  /\ Market.end_date m = GammaMarket.endDate market
  /\ Market.volume m <> ""
  /\ (GammaMarket.volume market <> "" -> Market.volume m = GammaMarket.volume market)
  /\ get_length (parseJsonField JSON_parse (GammaMarket.outcomes market) yes_no)
     = inr (Some (List.length (Market.tokens m)))
  /\ Forall (fun t => Token.token_id t = VString ""
                      \/ JsValue.truthy (Token.token_id t) = true) (Market.tokens m).
Proof.
  unfold formatMarket, yes_no.
  destruct (get_length _) as [e | [n | ]] eqn:Hlen; try discriminate.
  destruct (omap _ (seq 0 n)) as [tokens | e | ] eqn:Htokens; try discriminate.
  cbn [obind]. intros H. injection H as <-. cbn.
  apply omap_returned in Htokens.
  repeat split.
  - destruct (_ =? "")%string eqn:E; [ | reflexivity ].
    apply String.eqb_eq in E. now rewrite E.
  - destruct (_ =? "")%string eqn:E; [ discriminate | ].
    intros Hv. rewrite Hv in E. discriminate E.
  - intros Hv. destruct (_ =? "")%string eqn:E; [ | reflexivity ].
    apply String.eqb_eq in E. contradiction.
  - f_equal. f_equal. apply Forall2_length in Htokens.
    rewrite length_seq in Htokens. exact Htokens.
  - clear Hlen.
    induction Htokens as [ | i t indices ts Hi _ IH ]; constructor; [ | exact IH ].
    unfold token_at in Hi.
    destruct (of_sum (get_index _ i)) as [tid | e | ]; cbn in Hi; try discriminate Hi.
    destruct (of_sum (get_index _ i)) as [out | e | ]; cbn in Hi; try discriminate Hi.
    destruct (of_sum (get_index _ i)) as [p | e | ]; cbn in Hi; try discriminate Hi.
    injection Hi as <-. cbn [Token.token_id].
    destruct (or_else_empty tid) as [-> | [-> Ht]]; auto.
Qed.

Lemma formatted_market_witness :
  exists m,
    formatMarket Json.parse
      (Sample.market (VArray [VString "71"]) (VArray [VString "Up"; VString "Down"])
         VUndefined false)
    = Returned m
    /\ List.length (Market.tokens m) = 2%nat
    /\ Market.volume m <> "".
Proof.
  destruct (formatMarket Json.parse
              (Sample.market (VArray [VString "71"]) (VArray [VString "Up"; VString "Down"])
                 VUndefined false)) as [m | e | ] eqn:Hm;
    try (vm_compute in Hm; discriminate Hm).
  destruct (a_formatted_market_keeps_the_shape_of_the_raw_one Json.parse _ m Hm)
    as (_ & _ & _ & _ & _ & Hvolume & _ & Hlength & _).
  exists m. split; [ reflexivity | split; [ | exact Hvolume ] ].
  cbn in Hlength. injection Hlength as <-. reflexivity.
Defined.

(** X23.  Once [postOrder] has returned, place-order reports the order
    without the error flag whatever the response says: a response that
    carries an error message and no order id comes back with that
    message, the order id [""] and the status ["unknown"].  The tick
    size and the negative-risk flag echoed are the market's when the
    lookup returned them (0.01 for a tick size that is missing, 0 or
    [NaN]; [false] for a missing flag); the tick size echoed is never 0
    or [NaN]. *)
Lemma a_posted_order_is_reported_whatever_the_exchange_says
  (toStr : number -> string) (client : Env) (id : string) (params : Params.t)
  (tokenId given_side : string) (signedOrder : SignedOrder)
  (response : RawOrderResponse.t) :
  initialize client = inr tt ->
  ensureWriteAccess client = inr tt ->
  validate_order params = inr (tokenId, given_side) ->
  getClient client = inr tt ->
  createOrder client (order_args params tokenId given_side) = inr signedOrder ->
  postOrder client signedOrder = inr response ->
  exists details,
    result (polymarket_place_order toStr client id params)
    = Returned (toolResult (OrderData details) false)
    /\ OrderResult.message details = RawOrderResponse.errorMsg response
    /\ (RawOrderResponse.orderID response = None -> OrderResult.order_id details = "")
    /\ (RawOrderResponse.status response = None -> OrderResult.status details = "unknown")
    /\ (forall info, getMarket client tokenId = inr info ->
        OrderDetails.tick_size (OrderResult.order_details details)
        = number_or (RawMarketInfo.minimum_tick_size info) default_tick_size
        /\ OrderDetails.neg_risk (OrderResult.order_details details)
           = match RawMarketInfo.neg_risk info with Some b => b | None => false end)
    /\ JsNumber.truthy (OrderDetails.tick_size (OrderResult.order_details details)) = true.
Proof.
  intros Hinit Hwrite Hvalid Hclient Hcreate Hpost.
  unfold polymarket_place_order, market_info, catch_all, result.
  rewrite Hinit, Hwrite, Hvalid. quiet. rewrite Hclient. quiet.
  destruct (getMarket client tokenId) as [failure | info]; quiet;
    rewrite Hcreate; quiet; rewrite Hpost; quiet.
  all: eexists; split; [ reflexivity | ].
  all: cbn [order_result OrderResult.message OrderResult.order_id OrderResult.status
            OrderResult.order_details OrderDetails.tick_size OrderDetails.neg_risk].
  all: repeat split; try reflexivity.
  all: try (let H := fresh in intros H; rewrite H; reflexivity).
  all: try (apply number_or_truthy; reflexivity).
  all: match goal with
       | H : inl _ = inr _ |- _ => discriminate H
       | H : inr _ = inr _ |- _ => injection H as <-; reflexivity
       end.
Qed.

Lemma refused_order_witness :
  exists details,
    result (polymarket_place_order Sample.toString refusing_exchange "call-1"
              (Sample.order_params (Some "tok") (Some "BUY") (Some "10") (Some "0.5")))
    = Returned (toolResult (OrderData details) false)
    /\ OrderResult.message details = Some "not enough balance"
    /\ OrderResult.order_id details = ""
    /\ OrderResult.status details = "unknown"
    /\ OrderDetails.neg_risk (OrderResult.order_details details) = true.
Proof.
  destruct (a_posted_order_is_reported_whatever_the_exchange_says Sample.toString
              refusing_exchange "call-1"
              (Sample.order_params (Some "tok") (Some "BUY") (Some "10") (Some "0.5"))
              "tok" "BUY" {| signed := "0xsigned" |}
              {| RawOrderResponse.orderID := None;
                 RawOrderResponse.status := None;
                 RawOrderResponse.errorMsg := Some "not enough balance" |}
              eq_refl eq_refl)
    as (details & Hrun & Hmessage & Hid & Hstatus & Hinfo & _);
    try reflexivity.
  exists details. split; [ exact Hrun | ].
  split; [ exact Hmessage | ].
  split; [ exact (Hid eq_refl) | ].
  split; [ exact (Hstatus eq_refl) | ].
  exact (proj2 (Hinfo _ eq_refl)).
Defined.
